(** * gogs: the graceful-shutdown coordinator of [gs.go]

    [GracefulShutdown] pairs an [atomic.Int32] (field [list]) with a
    [sync.WaitGroup] (field [wg]).  Every method of [gs.go] is a short
    sequence of atomic operations on those two fields, so the methods are
    embedded once, as programs over the atomic operations ([Prog]), and
    given two semantics:

    - [run]: one goroutine executes the whole method without interference
      (the sequential reading used by the API-level properties);
    - [step]/[exec]: several goroutines are interleaved one atomic operation
      at a time (Go's [sync/atomic] operations are sequentially consistent,
      so interleaving is the exact semantics of these programs).

    The methods that take a closure or race a timer ([UnsubscribeFn],
    [UnsubscribeFnWithTimeout], [Wait], [WaitWithTimeout]) are defined on top
    of [run].  Durations are not modelled: the case that each [select] takes
    is a parameter of the method, and a closure acts on the caller's memory
    in one piece. *)

From Stdlib Require Import ZArith Lia String Bool.
From stdpp Require Import base list.

Local Open Scope Z_scope.

(* ===================================================================== *)
(** ** 32-bit integers *)

Definition MinInt32 : Z := -2147483648.
Definition MaxInt32 : Z := 2147483647.

(** Go's conversion to [int32]: the two's-complement value of the low 32
    bits.  [atomic.Int32.Add], [count * -1] and the WaitGroup counter all
    wrap this way. *)
Definition int32 (z : Z) : Z := (z + 2147483648) mod 4294967296 - 2147483648.

Definition is_int32 (z : Z) : Prop := MinInt32 <= z <= MaxInt32.

(* ===================================================================== *)
(** ** The coordinator and its two fields *)

(** [sync.WaitGroup]: the 64-bit [state] word, split into its high half (the
    counter, an [int32]) and its low half (the number of goroutines parked
    in [Wait]). *)
Record WaitGroup : Type := mkWaitGroup {
  counter : Z;
  waiters : Z
}.

(** [type GracefulShutdown struct { wg sync.WaitGroup; list atomic.Int32 }].
    The field [list] is spelled [gs_list] here (and [wg], [gs_wg]) so that
    the list type keeps its name. *)
Record GracefulShutdown : Type := mkGS {
  gs_wg : WaitGroup;
  gs_list : Z
}.

(** [&GracefulShutdown{}], what [NewContext] and [NewChannel] return. *)
Definition NewGracefulShutdown : GracefulShutdown :=
  mkGS (mkWaitGroup 0 0) 0.

Definition set_list (v : Z) (s : GracefulShutdown) : GracefulShutdown :=
  mkGS (gs_wg s) v.

Definition set_wg (w : WaitGroup) (s : GracefulShutdown) : GracefulShutdown :=
  mkGS w (gs_list s).

(* ===================================================================== *)
(** ** Atomic operations *)

(** [gs.list.Add(delta)]: stores and returns the wrapped sum. *)
Definition atomic_Add (delta : Z) (s : GracefulShutdown) : Z * GracefulShutdown :=
  let v := int32 (gs_list s + delta) in (v, set_list v s).

(** [wg.Add(delta)] of package [sync]:
<<
    state := wg.state.Add(uint64(delta) << 32)
    v := int32(state >> 32)
    w := uint32(state)
    if v < 0 { panic("sync: negative WaitGroup counter") }
    if w != 0 && delta > 0 && v == int32(delta) { panic(misuse) }
    if v > 0 || w == 0 { return }
    wg.state.Store(0)          // counter reached 0: release the waiters
>>
    The result is [Some msg] when the call panics; the new counter is stored
    before the checks, so it stays stored when the call panics. *)
Definition negative_counter : string := "sync: negative WaitGroup counter".
Definition misuse : string := "sync: WaitGroup misuse: Add called concurrently with Wait".

Definition WaitGroup_Add (delta : Z) (g : WaitGroup) : option string * WaitGroup :=
  let v := int32 (counter g + delta) in
  let w := waiters g in
  let g' := mkWaitGroup v w in
  if v <? 0 then (Some negative_counter, g')
  else if negb (w =? 0) && (delta >? 0) && (v =? int32 delta) then (Some misuse, g')
  else if (v >? 0) || (w =? 0) then (None, g')
  else (None, mkWaitGroup 0 0).

(** [wg.Wait()], up to the point where the caller parks: it returns at once
    ([true]) when the counter is 0, and otherwise registers as a waiter
    ([false]); a parked waiter is released by the [Add] that brings the
    counter to 0, which also resets [waiters]. *)
Definition WaitGroup_Wait (g : WaitGroup) : bool * WaitGroup :=
  if counter g =? 0 then (true, g)
  else (false, mkWaitGroup (counter g) (waiters g + 1)).

(* ===================================================================== *)
(** ** Programs over the atomic operations *)

Inductive Prog (A : Type) : Type :=
| Ret (a : A)
| ListLoad (k : Z -> Prog A)                (* gs.list.Load() *)
| ListAdd (delta : Z) (k : Z -> Prog A)     (* gs.list.Add(delta) *)
| WgAdd (delta : Z) (k : Prog A).           (* gs.wg.Add(delta) *)

Arguments Ret {A} a.
Arguments ListLoad {A} k.
Arguments ListAdd {A} delta k.
Arguments WgAdd {A} delta k.

Fixpoint bind {A B : Type} (p : Prog A) (f : A -> Prog B) : Prog B :=
  match p with
  | Ret a => f a
  | ListLoad k => ListLoad (fun v => bind (k v) f)
  | ListAdd d k => ListAdd d (fun v => bind (k v) f)
  | WgAdd d k => WgAdd d (bind k f)
  end.

(** [Prog] is a monad; stdpp's notations [x ← p; q] and [p ;; q] sequence
    the statements of a method. *)
#[global] Instance Prog_ret : MRet Prog := @Ret.
#[global] Instance Prog_bind : MBind Prog := fun A B f p => bind p f.

Definition list_Load : Prog Z := ListLoad Ret.
Definition list_Add (delta : Z) : Prog Z := ListAdd delta Ret.
Definition wg_Add (delta : Z) : Prog unit := WgAdd delta (Ret tt).
(** [func (wg *WaitGroup) Done() { wg.Add(-1) }] *)
Definition wg_Done : Prog unit := wg_Add (-1).

(* ===================================================================== *)
(** ** The counter methods of gs.go, as written *)

(** [gs.list.Add(1); gs.wg.Add(1)] *)
Definition Subscribe : Prog unit :=
  list_Add 1 ;;
  wg_Add 1.

(** [gs.list.Add(count); gs.wg.Add(int(count))] *)
Definition SubscribeN (count : Z) : Prog unit :=
  list_Add count ;;
  wg_Add count.

(** [if gs.list.Load() == 0 { return }; gs.list.Add(-1); gs.wg.Done()] *)
Definition Unsubscribe : Prog unit :=
  l ← list_Load;
  if l =? 0 then Ret tt
  else
    list_Add (-1) ;;
    wg_Done.

(** [for i := int32(0); i < count; i++ { gs.wg.Done() }]: the body runs
    [count] times, and not at all when [count <= 0]; [n] is the number of
    iterations left. *)
Fixpoint Done_loop (n : nat) : Prog unit :=
  match n with
  | O => Ret tt
  | S n' => wg_Done ;; Done_loop n'
  end.

(** UnsubscribeN, lines 127-141. *)
Definition UnsubscribeN (count : Z) : Prog unit :=
  l ← list_Load;
  if l =? 0 then Ret tt
  else
    let count := if l <? count then l else count in
    list_Add (int32 (count * -1)) ;;
    Done_loop (Z.to_nat count).

(** [return gs.list.Load()] *)
Definition Count : Prog Z := list_Load.

(* ===================================================================== *)
(** ** Sequential semantics *)

Inductive Outcome (A : Type) : Type :=
| Returned (a : A)
| Panicked (msg : string)
| Blocked.                       (* the call never returns *)

Arguments Returned {A} a.
Arguments Panicked {A} msg.
Arguments Blocked {A}.

(** What one uninterrupted execution yields: how it ended, the coordinator
    it left, and the deltas it passed to [wg.Add], in order ([wg.Done()]
    shows as [-1]). *)
Record Result (A : Type) : Type := mkResult {
  outcome : Outcome A;
  final : GracefulShutdown;
  barrier : list Z
}.

Arguments mkResult {A} _ _ _.
Arguments outcome {A} _.
Arguments final {A} _.
Arguments barrier {A} _.

Definition logged {A : Type} (d : Z) (r : Result A) : Result A :=
  mkResult (outcome r) (final r) (d :: barrier r).

Fixpoint run {A : Type} (p : Prog A) (s : GracefulShutdown) : Result A :=
  match p with
  | Ret a => mkResult (Returned a) s []
  | ListLoad k => run (k (gs_list s)) s
  | ListAdd d k => let (v, s') := atomic_Add d s in run (k v) s'
  | WgAdd d k =>
      match WaitGroup_Add d (gs_wg s) with
      | (Some msg, g) => mkResult (Panicked msg) (set_wg g s) [d]
      | (None, g) => logged d (run k (set_wg g s))
      end
  end.

(** [Count()] read off a state. *)
Definition count_of (s : GracefulShutdown) : Z := gs_list s.

(** The coordinator's data invariant: count and WaitGroup counter agree
    ([lockstep]) and lie in [0, MaxInt32]; goroutines are parked in [Wait]
    only while the counter is above 0. *)
Definition lockstep (s : GracefulShutdown) : Prop :=
  counter (gs_wg s) = gs_list s.

Definition Inv (s : GracefulShutdown) : Prop :=
  lockstep s /\
  0 <= gs_list s <= MaxInt32 /\
  0 <= waiters (gs_wg s) /\
  (gs_list s = 0 -> waiters (gs_wg s) = 0).

Definition sumZ (l : list Z) : Z := foldr Z.add 0 l.

(** The coordinator after [n] successful [wg.Done()]: the counter is [n]
    lower, and the waiters are released when it reaches 0. *)
Definition Done_n (n : nat) (g : WaitGroup) : WaitGroup :=
  match n with
  | O => g
  | S _ =>
      let v := counter g - Z.of_nat n in
      mkWaitGroup v (if v =? 0 then 0 else waiters g)
  end.

(** A coordinator reached through the API without any panic whose count is
    negative: [Subscribe(); UnsubscribeN(-2147483646); Subscribe()]. *)
Definition wrapped_gs : GracefulShutdown :=
  final (run Subscribe
    (final (run (UnsubscribeN (-2147483646))
      (final (run Subscribe NewGracefulShutdown))))).

(* ===================================================================== *)
(** ** Sequences of counter calls *)

Inductive CounterCall : Type :=
| CallSubscribe
| CallSubscribeN (count : Z)
| CallUnsubscribe
| CallUnsubscribeN (count : Z).

Definition method (c : CounterCall) : Prog unit :=
  match c with
  | CallSubscribe => Subscribe
  | CallSubscribeN n => SubscribeN n
  | CallUnsubscribe => Unsubscribe
  | CallUnsubscribeN n => UnsubscribeN n
  end.

(** The argument of a call; [Subscribe()] and [Unsubscribe()] stand for 1. *)
Definition amount (c : CounterCall) : Z :=
  match c with
  | CallSubscribe | CallUnsubscribe => 1
  | CallSubscribeN n | CallUnsubscribeN n => n
  end.

Definition is_subscribe (c : CounterCall) : bool :=
  match c with
  | CallSubscribe | CallSubscribeN _ => true
  | _ => false
  end.

(** One goroutine makes the calls in order; a panic ends the sequence. *)
Fixpoint run_calls (cs : list CounterCall) (s : GracefulShutdown) : Result unit :=
  match cs with
  | [] => mkResult (Returned tt) s []
  | c :: cs' =>
      let r := run (method c) s in
      match outcome r with
      | Returned _ =>
          let r' := run_calls cs' (final r) in
          mkResult (outcome r') (final r') (barrier r ++ barrier r')
      | _ => r
      end
  end.

(** [Count()] as read after each call that was started. *)
Fixpoint counts (cs : list CounterCall) (s : GracefulShutdown) : list Z :=
  match cs with
  | [] => []
  | c :: cs' =>
      let r := run (method c) s in
      count_of (final r) ::
      match outcome r with
      | Returned _ => counts cs' (final r)
      | _ => []
      end
  end.

(** The two sums of the accounting identity: everything subscribed, and
    everything actually unsubscribed, each unsubscribe clamped to [Count()]
    as it was when the call ran. *)
Fixpoint subscribed (cs : list CounterCall) : Z :=
  match cs with
  | [] => 0
  | c :: cs' => (if is_subscribe c then amount c else 0) + subscribed cs'
  end.

Fixpoint unsubscribed (cs : list CounterCall) (s : GracefulShutdown) : Z :=
  match cs with
  | [] => 0
  | c :: cs' =>
      (if is_subscribe c then 0 else Z.min (amount c) (count_of s))
      + unsubscribed cs' (final (run (method c) s))
  end.

(** The counter of the specification: an unbounded integer, [Subscribe(n)]
    adds [n], [Unsubscribe(n)] subtracts [min(n, count)].  [ideal_counts]
    lists its value after each call. *)
Definition ideal_step (c : CounterCall) (n : Z) : Z :=
  if is_subscribe c then n + amount c else n - Z.min (amount c) n.

Fixpoint ideal_counts (cs : list CounterCall) (n : Z) : list Z :=
  match cs with
  | [] => []
  | c :: cs' => ideal_step c n :: ideal_counts cs' (ideal_step c n)
  end.

(* ===================================================================== *)
(** ** Interleaving semantics *)

(** A running program: the coordinator shared by all goroutines, what is
    left to execute of each goroutine, and the panic that brought the
    process down, if any (nothing in gs.go recovers). *)
Record Config : Type := mkConfig {
  shared : GracefulShutdown;
  pool : list (Prog unit);
  crashed : option string
}.

(** Goroutine [i] performs its next atomic operation. *)
Definition step (i : nat) (c : Config) : Config :=
  match crashed c with
  | Some _ => c
  | None =>
      match pool c !! i with
      | None | Some (Ret _) => c
      | Some (ListLoad k) =>
          mkConfig (shared c) (<[i := k (gs_list (shared c))]> (pool c)) None
      | Some (ListAdd d k) =>
          let (v, s') := atomic_Add d (shared c) in
          mkConfig s' (<[i := k v]> (pool c)) None
      | Some (WgAdd d k) =>
          let (err, g) := WaitGroup_Add d (gs_wg (shared c)) in
          mkConfig (set_wg g (shared c)) (<[i := k]> (pool c)) err
      end
  end.

(** A schedule names the goroutine that moves at each step. *)
Definition exec (schedule : list nat) (c : Config) : Config :=
  foldl (fun c i => step i c) c schedule.

(** Number of atomic operations [p] performs when run alone from [s]. *)
Fixpoint ops {A : Type} (p : Prog A) (s : GracefulShutdown) : nat :=
  match p with
  | Ret _ => O
  | ListLoad k => S (ops (k (gs_list s)) s)
  | ListAdd d k => let (v, s') := atomic_Add d s in S (ops (k v) s')
  | WgAdd d k =>
      match WaitGroup_Add d (gs_wg s) with
      | (Some _, _) => 1%nat
      | (None, g) => S (ops k (set_wg g s))
      end
  end.

(** Two goroutines call [Unsubscribe()] on a coordinator that holds one
    subscription. *)
Definition two_unsubscribers : Config :=
  mkConfig (final (run Subscribe NewGracefulShutdown)) [Unsubscribe; Unsubscribe] None.

(* ===================================================================== *)
(** ** Methods that run a closure or race a timer *)

Section Closures.

(** [Env] holds the caller's own variables, the ones a cleanup closure
    reads and writes (the [isDone] flag of the tests, say). *)
Context {Env : Type}.

Record Mem : Type := mkMem {
  gs : GracefulShutdown;
  env : Env
}.

(** A [func()]: it may touch the caller's variables and call the
    coordinator; it returns, panics, or never returns. *)
Definition Fn : Type := Mem -> Outcome unit * Mem.

(** A method of the coordinator called from the goroutine that owns
    [Mem]: it works on the coordinator and leaves [env] alone. *)
Definition on_gs (f : GracefulShutdown -> Result unit) : Fn :=
  fun m => let r := f (gs m) in (outcome r, mkMem (final r) (env m)).

Definition call (p : Prog unit) : Fn := on_gs (run p).

(** [defer d(); body()]: [d] runs when [body] returns and when it panics;
    the panic of [body] goes on to the caller unless [d] panics itself;
    when [body] never returns, [d] never runs. *)
Definition deferring (d body : Fn) : Fn :=
  fun m =>
    match body m with
    | (Blocked, m1) => (Blocked, m1)
    | (o, m1) =>
        match d m1 with
        | (Returned _, m2) => (o, m2)
        | (o', m2) => (o', m2)
        end
    end.

(** UnsubscribeFn, lines 145-152. *)
Definition UnsubscribeFn (cleanFn : Fn) : Fn :=
  fun m =>
    if gs_list (gs m) =? 0 then (Returned tt, m)
    else deferring (call Unsubscribe) cleanFn m.

(** The case of a [select] that fires: the timer's channel or [doneCh]. *)
Inductive Select : Type := TimerC | DoneCh.

(** UnsubscribeFnWithTimeout, lines 157-181.  [cleanFn] runs in a goroutine
    of its own, and [fired] tells which case the [select] took.  [doneCh]
    is closed only after [cleanFn] has returned; a panic of [cleanFn]
    happens in the spawned goroutine, where nothing recovers it.  When the
    timer fires, [cleanFn] is still running: it is handed back as the third
    component, with none of its effects applied yet. *)
Definition UnsubscribeFnWithTimeout (cleanFn : Fn) (fired : Select)
  : Mem -> Outcome unit * Mem * option Fn :=
  fun m =>
    if gs_list (gs m) =? 0 then (Returned tt, m, None)
    else
      let on_timer := (call Unsubscribe m, Some cleanFn) in
      match fired with
      | TimerC => on_timer
      | DoneCh =>
          match cleanFn m with
          | (Returned _, m1) => (call Unsubscribe m1, None)
          | (Panicked msg, m1) => (Panicked msg, m1, None)
          | (Blocked, _) => on_timer
          end
      end.

End Closures.

Arguments Mem Env : clear implicits.
Arguments Fn Env : clear implicits.

(** A cleanup closure that sets the caller's flag and then panics. *)
Definition set_flag_and_panic : Fn bool :=
  fun m => (Panicked "cleanup failed", mkMem (gs m) true).

(** [gs.wg.Wait()] when no other goroutine is left to unsubscribe: it
    returns when the counter is 0 and blocks otherwise. *)
Definition Wait (s : GracefulShutdown) : Result unit :=
  let (done, g) := WaitGroup_Wait (gs_wg s) in
  mkResult (if done then Returned tt else Blocked) (set_wg g s) [].

(** How the race of WaitWithTimeout goes: [doneCh] is closed first; or the
    timer fires, after the spawned goroutine has entered [Wait] or before. *)
Inductive Race : Type := DoneFirst | TimerAfterWait | TimerBeforeWait.

(** [gs.UnsubscribeN(gs.Count())] *)
Definition force_zero : Prog unit :=
  c ← Count;
  UnsubscribeN c.

(** The timer case of WaitWithTimeout in one goroutine and a worker's
    [Unsubscribe()] in another, on a coordinator that holds one
    subscription. *)
Definition timeout_and_worker : Config :=
  mkConfig (final (run Subscribe NewGracefulShutdown)) [force_zero; Unsubscribe] None.

(** The deferred [<-doneCh]: the call goes on to return (or to panic) once
    [doneCh] is closed, and never does when it stays open. *)
Definition await_doneCh (closed : bool) (r : Result unit) : Result unit :=
  if closed then r else mkResult Blocked (final r) (barrier r).

(** The timer fires after the spawned goroutine has entered [gs.Wait()]:
    [doneCh] is closed if [Wait] found the counter at 0, or if the forced
    unsubscribe released the parked goroutine ([waiters] back at 0). *)
Definition timer_after_wait (s : GracefulShutdown) : Result unit :=
  let (done, g) := WaitGroup_Wait (gs_wg s) in
  let r := run force_zero (set_wg g s) in
  await_doneCh (done || (waiters (gs_wg (final r)) =? 0)) r.

(** The timer fires before the spawned goroutine reaches [gs.Wait()]: the
    goroutine then sees the counter the forced unsubscribe left. *)
Definition timer_before_wait (s : GracefulShutdown) : Result unit :=
  let r := run force_zero s in
  let (done, g) := WaitGroup_Wait (gs_wg (final r)) in
  await_doneCh done (mkResult (outcome r) (set_wg g (final r)) (barrier r)).

(** WaitWithTimeout, lines 198-217.  The spawned goroutine calls [gs.Wait()]
    and then closes [doneCh]; the [select] takes the timer case, which runs
    [gs.UnsubscribeN(gs.Count())], or the [doneCh] case; the deferred
    [<-doneCh] runs last in both.  With the counter above 0 the goroutine
    parks, [doneCh] stays open, and only the timer case can fire. *)
Definition WaitWithTimeout (race : Race) (s : GracefulShutdown) : Result unit :=
  match race with
  | DoneFirst =>
      if counter (gs_wg s) =? 0 then mkResult (Returned tt) s []
      else timer_after_wait s
  | TimerAfterWait => timer_after_wait s
  | TimerBeforeWait => timer_before_wait s
  end.

(* ===================================================================== *)
(** ** Every operation of the interface *)

Section Calls.

Context {Env : Type}.

Inductive Call : Type :=
| DoCounter (c : CounterCall)
| DoUnsubscribeFn (cleanFn : Fn Env)
| DoUnsubscribeFnWithTimeout (cleanFn : Fn Env) (fired : Select)
| DoCount
| DoWait
| DoWaitWithTimeout (race : Race).

Definition perform (c : Call) : Fn Env :=
  match c with
  | DoCounter c => call (method c)
  | DoUnsubscribeFn cleanFn => UnsubscribeFn cleanFn
  | DoUnsubscribeFnWithTimeout cleanFn fired =>
      fun m => (UnsubscribeFnWithTimeout cleanFn fired m).1
  | DoCount => call (Count ;; Ret tt)
  | DoWait => on_gs Wait
  | DoWaitWithTimeout race => on_gs (WaitWithTimeout race)
  end.

(** What is asked of a piece of code for the invariant to survive it:
    started on a coordinator in its invariant it leaves count and
    WaitGroup counter equal, and leaves the invariant when it returns. *)
Definition keeps_lockstep (f : Fn Env) : Prop :=
  forall m, Inv (gs m) ->
    lockstep (gs (f m).2) /\
    ((f m).1 = Returned tt -> Inv (gs (f m).2)).

(** Counts passed to the four counter methods are [int32]s, and the one
    passed to [UnsubscribeN] is not negative; cleanup closures keep the
    invariant themselves. *)
Definition call_ok (c : Call) : Prop :=
  match c with
  | DoCounter c => is_int32 (amount c) /\ (is_subscribe c = true \/ 0 <= amount c)
  | DoUnsubscribeFn cleanFn => keeps_lockstep cleanFn
  | DoUnsubscribeFnWithTimeout cleanFn _ => keeps_lockstep cleanFn
  | _ => True
  end.

End Calls.

Arguments Call Env : clear implicits.

(* ===================================================================== *)
(** ** Goroutines that subscribe and unsubscribe side by side *)

(** Where a goroutine that called [Subscribe()] or [Unsubscribe()] stands:
    before its first atomic operation, between two of them, or done. *)
Inductive Phase : Type :=
| SubStart       (* Subscribe(): nothing done yet *)
| SubAdded       (* Subscribe(): list.Add(1) done, wg.Add(1) to come *)
| UnsubStart     (* Unsubscribe(): nothing done yet *)
| UnsubLoaded    (* Unsubscribe(): passed the zero test, list.Add(-1) to come *)
| UnsubAdded     (* Unsubscribe(): list.Add(-1) done, wg.Done() to come *)
| Finished.

(** What is left to execute in each phase. *)
Definition prog_of (p : Phase) : Prog unit :=
  match p with
  | SubStart => Subscribe
  | SubAdded => wg_Add 1
  | UnsubStart => Unsubscribe
  | UnsubLoaded => list_Add (-1) ;; wg_Done
  | UnsubAdded => wg_Done
  | Finished => Ret tt
  end.

(** Units a goroutine has still to add to, or to take off, the count and
    the WaitGroup counter. *)
Definition list_to_add (p : Phase) : Z :=
  match p with SubStart => 1 | _ => 0 end.

Definition wg_to_add (p : Phase) : Z :=
  match p with SubStart | SubAdded => 1 | _ => 0 end.

Definition list_to_take (p : Phase) : Z :=
  match p with UnsubStart | UnsubLoaded => 1 | _ => 0 end.

Definition wg_to_take (p : Phase) : Z :=
  match p with UnsubStart | UnsubLoaded | UnsubAdded => 1 | _ => 0 end.

(** What every interleaving keeps: nobody has panicked; count and WaitGroup
    counter, corrected by what is still to come, are both [K]; neither can
    go below 0 nor past [MaxInt32] by what is still to come. *)
Definition side_by_side (K : Z) (c : Config) (ps : list Phase) : Prop :=
  pool c = prog_of <$> ps /\
  crashed c = None /\
  waiters (gs_wg (shared c)) = 0 /\
  gs_list (shared c) + sumZ (list_to_add <$> ps) - sumZ (list_to_take <$> ps) = K /\
  counter (gs_wg (shared c)) + sumZ (wg_to_add <$> ps) - sumZ (wg_to_take <$> ps) = K /\
  0 <= gs_list (shared c) - sumZ (list_to_take <$> ps) /\
  0 <= counter (gs_wg (shared c)) - sumZ (wg_to_take <$> ps) /\
  gs_list (shared c) + sumZ (list_to_add <$> ps) <= MaxInt32 /\
  counter (gs_wg (shared c)) + sumZ (wg_to_add <$> ps) <= MaxInt32.

(* ===================================================================== *)
(** ** Facts about [int32] *)

Lemma int32_id (z : Z) : is_int32 z -> int32 z = z.
Proof.
  unfold is_int32, MinInt32, MaxInt32, int32. intros H.
  rewrite Z.mod_small by lia. lia.
Qed.

Lemma int32_range (z : Z) : is_int32 (int32 z).
Proof.
  unfold is_int32, MinInt32, MaxInt32, int32.
  pose proof (Z.mod_pos_bound (z + 2147483648) 4294967296). lia.
Qed.

Lemma int32_add_r (a b : Z) : int32 (a + int32 b) = int32 (a + b).
Proof.
  unfold int32. f_equal.
  replace (a + ((b + 2147483648) mod 4294967296 - 2147483648) + 2147483648)
    with (a + (b + 2147483648) mod 4294967296) by lia.
  rewrite Zplus_mod_idemp_r. f_equal. lia.
Qed.

(* ===================================================================== *)
(** ** What [run] computes for each method *)

Lemma run_bind {A B : Type} (p : Prog A) (f : A -> Prog B) (s : GracefulShutdown) :
  run (bind p f) s =
  match outcome (run p s) with
  | Returned a =>
      let r := run (f a) (final (run p s)) in
      mkResult (outcome r) (final r) (barrier (run p s) ++ barrier r)
  | Panicked msg => mkResult (Panicked msg) (final (run p s)) (barrier (run p s))
  | Blocked => mkResult Blocked (final (run p s)) (barrier (run p s))
  end.
Proof.
  revert s. induction p as [a | k IH | d k IH | d p IH]; intros s; simpl.
  - destruct (run (f a) s); reflexivity.
  - apply IH.
  - apply IH.
  - destruct (WaitGroup_Add d (gs_wg s)) as [[msg|] g]; simpl.
    + reflexivity.
    + rewrite IH. destruct (outcome (run p (set_wg g s))); reflexivity.
Qed.

(** [run] never yields [Blocked]: no atomic operation blocks. *)
Lemma run_not_Blocked {A : Type} (p : Prog A) (s : GracefulShutdown) :
  outcome (run p s) <> Blocked.
Proof.
  revert s. induction p as [a | k IH | d k IH | d p IH]; intros s; simpl;
    try discriminate; try apply IH.
  destruct (WaitGroup_Add d (gs_wg s)) as [[msg|] g]; simpl;
    [discriminate | apply IH].
Qed.

Lemma WaitGroup_Done_pos (g : WaitGroup) :
  0 < counter g <= MaxInt32 -> 0 <= waiters g ->
  WaitGroup_Add (-1) g = (None, Done_n 1 g).
Proof.
  intros Hc Hw. unfold WaitGroup_Add, Done_n.
  rewrite int32_id by (unfold is_int32, MinInt32, MaxInt32 in *; lia).
  replace (counter g + -1) with (counter g - Z.of_nat 1) by lia.
  set (v := counter g - Z.of_nat 1).
  assert (0 <= v) by (subst v; lia).
  destruct (Z.ltb_spec v 0); [lia|].
  rewrite andb_false_r. simpl.
  destruct (Z.eqb_spec v 0) as [E|E].
  - destruct (Z.gtb_spec v 0); [lia|]. simpl.
    destruct (Z.eqb_spec (waiters g) 0) as [E'|E']; simpl.
    + rewrite E'. reflexivity.
    + rewrite E. reflexivity.
  - destruct (Z.gtb_spec v 0); [|lia]. reflexivity.
Qed.

Lemma Done_n_S (n : nat) (g : WaitGroup) :
  Z.of_nat (S n) <= counter g ->
  Done_n n (Done_n 1 g) = Done_n (S n) g.
Proof.
  intros H. destruct n as [|n]; [reflexivity|].
  unfold Done_n. cbn [counter waiters].
  replace (counter g - Z.of_nat 1 - Z.of_nat (S n)) with (counter g - Z.of_nat (S (S n))) by lia.
  f_equal.
  destruct (Z.eqb_spec (counter g - Z.of_nat (S (S n))) 0); [reflexivity|].
  destruct (Z.eqb_spec (counter g - Z.of_nat 1) 0); [lia | reflexivity].
Qed.

Lemma run_Done_loop (n : nat) (s : GracefulShutdown) :
  Z.of_nat n <= counter (gs_wg s) <= MaxInt32 -> 0 <= waiters (gs_wg s) ->
  run (Done_loop n) s =
  mkResult (Returned tt) (set_wg (Done_n n (gs_wg s)) s) (repeat (-1) n).
Proof.
  revert s. induction n as [|n IH]; intros s Hc Hw.
  - destruct s; reflexivity.
  - cbn [Done_loop]. change (run (WgAdd (-1) (Done_loop n)) s = 
      mkResult (Returned tt) (set_wg (Done_n (S n) (gs_wg s)) s) (repeat (-1) (S n))).
    cbn [run]. rewrite WaitGroup_Done_pos by lia.
    rewrite IH.
    + unfold logged. cbn [outcome final barrier set_wg gs_wg gs_list repeat].
      rewrite Done_n_S by lia. reflexivity.
    + cbn [set_wg gs_wg Done_n counter]. lia.
    + cbn [set_wg gs_wg Done_n waiters].
      destruct (counter (gs_wg s) - Z.of_nat 1 =? 0); lia.
Qed.

Lemma run_Subscribe (s : GracefulShutdown) :
  run Subscribe s = run (wg_Add 1) (set_list (int32 (gs_list s + 1)) s).
Proof. reflexivity. Qed.

Lemma run_SubscribeN (n : Z) (s : GracefulShutdown) :
  run (SubscribeN n) s = run (wg_Add n) (set_list (int32 (gs_list s + n)) s).
Proof. reflexivity. Qed.

Lemma run_Unsubscribe (s : GracefulShutdown) :
  run Unsubscribe s =
  if gs_list s =? 0 then mkResult (Returned tt) s []
  else run wg_Done (set_list (int32 (gs_list s + -1)) s).
Proof.
  unfold Unsubscribe. cbn [mbind Prog_bind bind list_Load run].
  destruct (gs_list s =? 0); reflexivity.
Qed.

Lemma run_UnsubscribeN (k : Z) (s : GracefulShutdown) :
  run (UnsubscribeN k) s =
  if gs_list s =? 0 then mkResult (Returned tt) s []
  else
    let c := if gs_list s <? k then gs_list s else k in
    run (Done_loop (Z.to_nat c)) (set_list (int32 (gs_list s + int32 (c * -1))) s).
Proof.
  unfold UnsubscribeN. cbn [mbind Prog_bind bind list_Load run].
  destruct (gs_list s =? 0); reflexivity.
Qed.

Lemma run_wg_Add (d : Z) (s : GracefulShutdown) :
  run (wg_Add d) s =
  match WaitGroup_Add d (gs_wg s) with
  | (Some msg, g) => mkResult (Panicked msg) (set_wg g s) [d]
  | (None, g) => mkResult (Returned tt) (set_wg g s) [d]
  end.
Proof.
  unfold wg_Add. cbn [run].
  destruct (WaitGroup_Add d (gs_wg s)) as [[msg|] g]; reflexivity.
Qed.

(** No loop iteration touches the count. *)
Lemma Done_loop_list (n : nat) (s : GracefulShutdown) :
  gs_list (final (run (Done_loop n) s)) = gs_list s.
Proof.
  revert s. induction n as [|n IH]; intros s; [reflexivity|].
  change (Done_loop (S n)) with (WgAdd (-1) (Done_loop n)). cbn [run].
  destruct (WaitGroup_Add (-1) (gs_wg s)) as [[msg|] g]; [reflexivity|].
  unfold logged. cbn [final]. rewrite IH. reflexivity.
Qed.

(** The counter a WaitGroup holds after [Add(delta)], panic or not. *)
Lemma WaitGroup_Add_counter (d : Z) (g : WaitGroup) :
  counter (snd (WaitGroup_Add d g)) = int32 (counter g + d).
Proof.
  unfold WaitGroup_Add.
  destruct (Z.ltb_spec (int32 (counter g + d)) 0) as [Hneg|Hpos]; [reflexivity|].
  destruct (negb (waiters g =? 0) && (d >? 0) && (int32 (counter g + d) =? int32 d));
    [reflexivity|].
  destruct (Z.gtb_spec (int32 (counter g + d)) 0); [reflexivity|].
  destruct (waiters g =? 0); cbn [orb snd counter]; [reflexivity|lia].
Qed.

(* ===================================================================== *)
(** ** UnsubscribeN and Unsubscribe, one call *)

(** C1.  For every coordinator state and every positive [k] that exceeds
    [Count()], [UnsubscribeN(k)] leaves [Count()] at exactly 0, so never
    negative.  On a coordinator that satisfies its invariant the call
    returns normally and the decrement is clamped to the count that was
    available: [wg.Done()] runs [Count()] times, not [k] times, and the
    WaitGroup counter ends at 0 as well. *)
Theorem UnsubscribeN_beyond_Count (s : GracefulShutdown) (k : Z) :
  0 < k -> count_of s < k ->
  let r := run (UnsubscribeN k) s in
  count_of (final r) = 0 /\
  (Inv s ->
   outcome r = Returned tt /\
   barrier r = repeat (-1) (Z.to_nat (count_of s)) /\
   counter (gs_wg (final r)) = 0).
Proof.
  unfold count_of. intros _ Hk. cbv zeta. rewrite run_UnsubscribeN.
  destruct (Z.eqb_spec (gs_list s) 0) as [E|E].
  - split; [exact E|]. intros (L & _ & _). cbn [outcome barrier final].
    rewrite E. repeat split. rewrite L. exact E.
  - destruct (Z.ltb_spec (gs_list s) k); [|lia]. cbv zeta. split.
    + rewrite Done_loop_list. cbn [set_list gs_list].
      rewrite int32_add_r.
      replace (gs_list s + gs_list s * -1) with 0 by lia. reflexivity.
    + intros (L & R & W & Wz). unfold lockstep in L.
      rewrite run_Done_loop; cbn [set_list gs_wg outcome barrier final set_wg];
        [| rewrite L; lia | exact W].
      repeat split.
      destruct (Z.to_nat (gs_list s)) eqn:En; [lia|].
      cbn [Done_n counter]. rewrite <- En. lia.
Qed.

Lemma Inv_three : Inv (mkGS (mkWaitGroup 3 0) 3).
Proof. unfold Inv, lockstep, MaxInt32. cbn. lia. Qed.

Lemma UnsubscribeN_beyond_Count_witness :
  let s := mkGS (mkWaitGroup 3 0) 3 in
  let r := run (UnsubscribeN 10) s in
  count_of (final r) = 0 /\
  outcome r = Returned tt /\
  barrier r = [-1; -1; -1] /\
  counter (gs_wg (final r)) = 0.
Proof.
  destruct (UnsubscribeN_beyond_Count (mkGS (mkWaitGroup 3 0) 3) 10 eq_refl eq_refl)
    as [Hcount Hinv].
  split; [exact Hcount | exact (Hinv Inv_three)].
Defined.

(** C5.  On a coordinator whose [Count()] is 0, [Unsubscribe()] and
    [UnsubscribeN(k)], for any positive [k], return normally, perform no
    [wg.Done()], and leave the whole coordinator as it was. *)
Theorem Unsubscribe_on_empty (s : GracefulShutdown) (k : Z) :
  count_of s = 0 -> 0 < k ->
  run Unsubscribe s = mkResult (Returned tt) s [] /\
  run (UnsubscribeN k) s = mkResult (Returned tt) s [].
Proof.
  unfold count_of. intros E _.
  rewrite run_Unsubscribe, run_UnsubscribeN, E. split; reflexivity.
Qed.

Lemma Unsubscribe_on_empty_witness :
  run Unsubscribe NewGracefulShutdown = mkResult (Returned tt) NewGracefulShutdown [] /\
  run (UnsubscribeN 10) NewGracefulShutdown = mkResult (Returned tt) NewGracefulShutdown [].
Proof.
  apply (Unsubscribe_on_empty NewGracefulShutdown 10).
  - reflexivity.
  - reflexivity.
Defined.

(** C9, as stated, fails where the count is negative: from [wrapped_gs]
    (count [MinInt32], WaitGroup counter 2) [Unsubscribe()] takes one unit
    off both, while [UnsubscribeN(1)] clamps to the negative count, sets the
    count to 0 and leaves the WaitGroup alone. *)
Lemma Unsubscribe_differs_on_negative_count :
  wrapped_gs = mkGS (mkWaitGroup 2 0) MinInt32 /\
  final (run Unsubscribe wrapped_gs) = mkGS (mkWaitGroup 1 0) MaxInt32 /\
  final (run (UnsubscribeN 1) wrapped_gs) = mkGS (mkWaitGroup 2 0) 0 /\
  final (run Unsubscribe wrapped_gs) <> final (run (UnsubscribeN 1) wrapped_gs).
Proof.
  repeat split; try (vm_compute; reflexivity).
  vm_compute. discriminate.
Qed.

(** C9, amended.  From every coordinator state whose count is not negative,
    [Unsubscribe()] and [UnsubscribeN(1)] end the same way, leave the same
    count and WaitGroup, and make the same calls to the WaitGroup: nothing
    at count 0, one [list.Add(-1)] with one [wg.Done()] otherwise. *)
Theorem Unsubscribe_is_UnsubscribeN_1 (s : GracefulShutdown) :
  0 <= count_of s ->
  run Unsubscribe s = run (UnsubscribeN 1) s.
Proof.
  unfold count_of. intros H. rewrite run_Unsubscribe, run_UnsubscribeN.
  destruct (Z.eqb_spec (gs_list s) 0); [reflexivity|].
  destruct (Z.ltb_spec (gs_list s) 1); [lia|]. reflexivity.
Qed.

Lemma Unsubscribe_is_UnsubscribeN_1_witness :
  run Unsubscribe (mkGS (mkWaitGroup 2 0) 2) =
  run (UnsubscribeN 1) (mkGS (mkWaitGroup 2 0) 2).
Proof.
  apply (Unsubscribe_is_UnsubscribeN_1 (mkGS (mkWaitGroup 2 0) 2)).
  vm_compute. discriminate.
Defined.

(** C10, as stated, fails at the ends of the [int32] range.  With the count
    at [MaxInt32], [UnsubscribeN(-1)] wraps it to [MinInt32]; and with
    [k = MinInt32] the product [count * -1] is [MinInt32] again, so the
    count goes down by 2147483648 instead of up. *)
Lemma UnsubscribeN_nonpositive_wraps :
  let full := final (run (SubscribeN MaxInt32) NewGracefulShutdown) in
  let one := final (run Subscribe NewGracefulShutdown) in
  (count_of full = MaxInt32 /\
   count_of (final (run (UnsubscribeN (-1)) full)) = MinInt32 /\
   count_of (final (run (UnsubscribeN (-1)) full)) <> count_of full - -1 /\
   ~ count_of full < count_of (final (run (UnsubscribeN (-1)) full))) /\
  (count_of one = 1 /\
   count_of (final (run (UnsubscribeN MinInt32) one)) = -2147483647 /\
   ~ count_of one < count_of (final (run (UnsubscribeN MinInt32) one))).
Proof. vm_compute. repeat split; try reflexivity; discriminate. Qed.

(** C10, amended.  For every state with count above 0 and every [k <= 0],
    [UnsubscribeN(k)] returns normally, makes no call to the WaitGroup and
    leaves it untouched, and sets the count to [count - k] in [int32]
    arithmetic; whenever [count - k] does not exceed [MaxInt32] that is
    [count - k] itself, so [UnsubscribeN(0)] changes nothing and a negative
    [k] raises the count by [-k]. *)
Theorem UnsubscribeN_nonpositive (s : GracefulShutdown) (k : Z) :
  0 < count_of s -> k <= 0 ->
  run (UnsubscribeN k) s =
    mkResult (Returned tt) (set_list (int32 (count_of s - k)) s) [] /\
  (count_of s - k <= MaxInt32 -> int32 (count_of s - k) = count_of s - k).
Proof.
  unfold count_of. intros Hl Hk. split.
  - rewrite run_UnsubscribeN.
    destruct (Z.eqb_spec (gs_list s) 0); [lia|].
    destruct (Z.ltb_spec (gs_list s) k); [lia|]. cbv zeta.
    replace (Z.to_nat k) with O by lia. cbn [Done_loop run].
    rewrite int32_add_r.
    replace (gs_list s + k * -1) with (gs_list s - k) by lia. reflexivity.
  - intros H. apply int32_id. unfold is_int32, MinInt32, MaxInt32 in *. lia.
Qed.

Lemma UnsubscribeN_nonpositive_witness :
  let s := mkGS (mkWaitGroup 2 0) 2 in
  run (UnsubscribeN (-3)) s =
    mkResult (Returned tt) (set_list (int32 (count_of s - -3)) s) [] /\
  (count_of s - -3 <= MaxInt32 -> int32 (count_of s - -3) = count_of s - -3).
Proof.
  apply (UnsubscribeN_nonpositive (mkGS (mkWaitGroup 2 0) 2) (-3)).
  - reflexivity.
  - vm_compute. discriminate.
Defined.

(* ===================================================================== *)
(** ** Goroutines interleaved *)

Lemma exec_cons (i : nat) (schedule : list nat) (c : Config) :
  exec (i :: schedule) c = exec schedule (step i c).
Proof. reflexivity. Qed.

(** The two semantics agree on a goroutine that runs alone: scheduling it
    for as many steps as it has atomic operations gives what [run] gives. *)
Lemma exec_alone (p : Prog unit) (s : GracefulShutdown) :
  let c := exec (repeat O (ops p s)) (mkConfig s [p] None) in
  shared c = final (run p s) /\
  crashed c = match outcome (run p s) with Panicked msg => Some msg | _ => None end.
Proof.
  revert s. induction p as [a | k IH | d k IH | d p IH]; intros s.
  - split; reflexivity.
  - cbn [ops repeat run]. rewrite exec_cons. apply IH.
  - cbn [ops run]. unfold atomic_Add. cbn [repeat]. rewrite exec_cons.
    apply IH.
  - cbn [ops run]. destruct (WaitGroup_Add d (gs_wg s)) as [[msg|] g] eqn:E.
    + cbn. rewrite E. split; reflexivity.
    + cbn [repeat]. rewrite exec_cons. unfold step. cbn. rewrite E.
      unfold logged. cbn [outcome final]. apply IH.
Qed.

(** C2.  The clamp of [Unsubscribe()] is a [Load] followed by a separate
    [Add], not one atomic update.  When both goroutines load the count
    before either subtracts, both pass the zero test: the count ends at -1
    and the second [wg.Done()] panics with a negative WaitGroup counter.
    The same two calls one after the other leave the count at 0. *)
Theorem Unsubscribe_race_below_zero :
  count_of (shared two_unsubscribers) = 1 /\
  (let c := exec [0; 1; 0; 0; 1; 1]%nat two_unsubscribers in
   count_of (shared c) = -1 /\
   counter (gs_wg (shared c)) = -1 /\
   crashed c = Some negative_counter) /\
  (let c := exec [0; 0; 0; 1; 1; 1]%nat two_unsubscribers in
   count_of (shared c) = 0 /\ crashed c = None).
Proof. vm_compute. repeat split; reflexivity. Qed.

(** The same race between the forced unsubscribe of a WaitWithTimeout whose
    timer fires and the [Unsubscribe()] of the worker it stopped waiting
    for: both load a count of 1, both subtract, and the process goes down
    on the second [wg.Done()]. *)
Lemma forced_zero_races_with_worker :
  let c := exec [0; 0; 1; 0; 1; 0; 1]%nat timeout_and_worker in
  count_of (shared c) = -1 /\ crashed c = Some negative_counter.
Proof. vm_compute. split; reflexivity. Qed.

(* ===================================================================== *)
(** ** The closure-taking methods *)

(** [Unsubscribe()] from a coordinator in its invariant with something
    subscribed: one unit leaves the count and the WaitGroup. *)
Lemma run_Unsubscribe_Inv (s : GracefulShutdown) :
  Inv s -> 0 < count_of s ->
  run Unsubscribe s =
    mkResult (Returned tt)
      (mkGS (Done_n 1 (gs_wg s)) (gs_list s - 1)) [-1] /\
  Inv (mkGS (Done_n 1 (gs_wg s)) (gs_list s - 1)).
Proof.
  unfold count_of. intros (L & R & W & Wz) Hpos. unfold lockstep in L. split.
  - rewrite run_Unsubscribe.
    destruct (Z.eqb_spec (gs_list s) 0); [lia|].
    unfold wg_Done. rewrite run_wg_Add. cbn [set_list gs_wg].
    rewrite WaitGroup_Done_pos by lia.
    rewrite int32_id by (unfold is_int32, MinInt32, MaxInt32 in *; lia).
    reflexivity.
  - unfold Inv, lockstep. cbn [gs_wg gs_list Done_n counter waiters].
    destruct (Z.eqb_spec (counter (gs_wg s) - Z.of_nat 1) 0); lia.
Qed.

(** C6.  Called with count above 0 and a [cleanFn] that returns or panics,
    [UnsubscribeFn] applies [cleanFn] to the caller's own memory and then
    runs [Unsubscribe()] once on the coordinator [cleanFn] left, whether
    [cleanFn] returned or panicked; the call ends the way [cleanFn] did, so
    a panic reaches the caller.  When the coordinator satisfies its
    invariant and [cleanFn] leaves it alone, that [Unsubscribe()] is one
    [wg.Done()], the count is exactly one lower than at the call, and the
    invariant still holds. *)
Theorem UnsubscribeFn_unsubscribes_once {Env : Type} (cleanFn : Fn Env) (m : Mem Env) :
  0 < count_of (gs m) ->
  (cleanFn m).1 <> Blocked ->
  let m1 := (cleanFn m).2 in
  let r := run Unsubscribe (gs m1) in
  (UnsubscribeFn cleanFn m).2 = mkMem (final r) (env m1) /\
  (outcome r = Returned tt -> (UnsubscribeFn cleanFn m).1 = (cleanFn m).1) /\
  (Inv (gs m) -> gs m1 = gs m ->
   outcome r = Returned tt /\
   barrier r = [-1] /\
   count_of (final r) = count_of (gs m) - 1 /\
   Inv (final r)).
Proof.
  unfold count_of. intros Hpos Hterm. cbv zeta.
  unfold UnsubscribeFn, deferring, call, on_gs.
  destruct (Z.eqb_spec (gs_list (gs m)) 0); [lia|].
  destruct (cleanFn m) as [o m1]. cbn [fst snd] in *.
  split; [|split].
  - destruct o as [[]|msg|]; [| |congruence];
      destruct (outcome (run Unsubscribe (gs m1))) as [[]|msg'|]; reflexivity.
  - intros Hr. rewrite Hr. destruct o as [[]|msg|]; [reflexivity..|congruence].
  - intros HI Hsame.
    destruct (run_Unsubscribe_Inv (gs m) HI Hpos) as [E I].
    rewrite Hsame, E. cbn [outcome barrier final count_of gs_list].
    split; [reflexivity|]. split; [reflexivity|]. split; [reflexivity|exact I].
Qed.

Lemma UnsubscribeFn_unsubscribes_once_witness :
  let m := mkMem (mkGS (mkWaitGroup 3 0) 3) false in
  UnsubscribeFn set_flag_and_panic m =
    (Panicked "cleanup failed", mkMem (mkGS (mkWaitGroup 2 0) 2) true) /\
  barrier (run Unsubscribe (gs (set_flag_and_panic m).2)) = [-1] /\
  Inv (final (run Unsubscribe (gs (set_flag_and_panic m).2))).
Proof.
  destruct (UnsubscribeFn_unsubscribes_once set_flag_and_panic
              (mkMem (mkGS (mkWaitGroup 3 0) 3) false) eq_refl)
    as (Hmem & Hout & Hinv); [discriminate|].
  destruct (Hinv Inv_three eq_refl) as (Hret & Hbar & _ & HI).
  split; [| split; [exact Hbar | exact HI]].
  rewrite (surjective_pairing (UnsubscribeFn _ _)), Hmem, (Hout Hret).
  reflexivity.
Defined.

(** C7.  On a coordinator whose [Count()] is 0, [UnsubscribeFn(f)] and
    [UnsubscribeFnWithTimeout(f, d)] return at once whatever [f] is: the
    caller's memory, count included, is exactly what it was, so no effect
    of [f] has taken place, and no goroutine running [f] is left behind. *)
Theorem UnsubscribeFn_on_empty {Env : Type} (f : Fn Env) (fired : Select) (m : Mem Env) :
  count_of (gs m) = 0 ->
  UnsubscribeFn f m = (Returned tt, m) /\
  UnsubscribeFnWithTimeout f fired m = (Returned tt, m, None).
Proof.
  unfold count_of, UnsubscribeFn, UnsubscribeFnWithTimeout. intros E.
  rewrite E. split; reflexivity.
Qed.

Lemma UnsubscribeFn_on_empty_witness :
  let m := mkMem NewGracefulShutdown false in
  UnsubscribeFn set_flag_and_panic m = (Returned tt, m) /\
  UnsubscribeFnWithTimeout set_flag_and_panic DoneCh m = (Returned tt, m, None).
Proof.
  apply (UnsubscribeFn_on_empty set_flag_and_panic DoneCh
           (mkMem NewGracefulShutdown false)).
  reflexivity.
Defined.

(* ===================================================================== *)
(** ** WaitWithTimeout *)

Lemma run_force_zero (s : GracefulShutdown) :
  run force_zero s = run (UnsubscribeN (gs_list s)) s.
Proof. reflexivity. Qed.

(** [UnsubscribeN(Count())] always leaves the count at 0. *)
Lemma force_zero_count (s : GracefulShutdown) :
  gs_list (final (run force_zero s)) = 0.
Proof.
  rewrite run_force_zero, run_UnsubscribeN.
  destruct (Z.eqb_spec (gs_list s) 0) as [E|E]; [exact E|].
  rewrite Z.ltb_irrefl. cbv zeta. rewrite Done_loop_list. cbn [set_list gs_list].
  rewrite int32_add_r.
  replace (gs_list s + gs_list s * -1) with 0 by lia. reflexivity.
Qed.

(** On a coordinator in its invariant it returns, after [Count()] calls of
    [wg.Done()], with the WaitGroup counter at 0 and every waiter released. *)
Lemma force_zero_Inv (s : GracefulShutdown) :
  Inv s ->
  outcome (run force_zero s) = Returned tt /\
  barrier (run force_zero s) = repeat (-1) (Z.to_nat (gs_list s)) /\
  counter (gs_wg (final (run force_zero s))) = 0 /\
  waiters (gs_wg (final (run force_zero s))) = 0.
Proof.
  intros (L & R & W & Wz). unfold lockstep in L.
  rewrite run_force_zero, run_UnsubscribeN.
  destruct (Z.eqb_spec (gs_list s) 0) as [E|E].
  - cbn [outcome barrier final]. rewrite E. repeat split; [lia | auto].
  - rewrite Z.ltb_irrefl. cbv zeta.
    rewrite run_Done_loop; cbn [set_list gs_wg outcome barrier final set_wg];
      [| rewrite L; lia | exact W].
    destruct (Z.to_nat (gs_list s)) eqn:En; [lia|].
    cbn [Done_n counter waiters]. rewrite <- En.
    replace (counter (gs_wg s) - Z.of_nat (Z.to_nat (gs_list s))) with 0 by lia.
    repeat split.
Qed.

(** A coordinator with both counters at 0 and nobody waiting. *)
Lemma Inv_zero (s : GracefulShutdown) :
  gs_list s = 0 -> counter (gs_wg s) = 0 -> waiters (gs_wg s) = 0 -> Inv s.
Proof. unfold Inv, lockstep, MaxInt32. lia. Qed.

Lemma timer_after_wait_count (s : GracefulShutdown) :
  gs_list (final (timer_after_wait s)) = 0.
Proof.
  unfold timer_after_wait, await_doneCh.
  destruct (WaitGroup_Wait (gs_wg s)) as [done g]. cbv zeta.
  destruct (done || _); cbn [final]; apply force_zero_count.
Qed.

Lemma timer_before_wait_count (s : GracefulShutdown) :
  gs_list (final (timer_before_wait s)) = 0.
Proof.
  unfold timer_before_wait, await_doneCh. cbv zeta.
  destruct (WaitGroup_Wait _) as [done g].
  destruct done; cbn [final set_wg gs_list]; apply force_zero_count.
Qed.

Lemma timer_after_wait_Inv (s : GracefulShutdown) :
  Inv s ->
  outcome (timer_after_wait s) = Returned tt /\
  barrier (timer_after_wait s) = repeat (-1) (Z.to_nat (gs_list s)) /\
  counter (gs_wg (final (timer_after_wait s))) = 0 /\
  Inv (final (timer_after_wait s)).
Proof.
  intros HI. pose proof (timer_after_wait_count s) as Hcount. revert Hcount.
  unfold timer_after_wait, WaitGroup_Wait.
  destruct (Z.eqb_spec (counter (gs_wg s)) 0) as [E|E]; cbv zeta.
  - replace (set_wg (gs_wg s) s) with s by (destruct s; reflexivity).
    cbn [orb await_doneCh]. destruct (force_zero_Inv s HI) as (Ho & Hb & Hc & Hw).
    intros Hcount. auto using Inv_zero.
  - set (parked := set_wg (mkWaitGroup (counter (gs_wg s)) (waiters (gs_wg s) + 1)) s).
    assert (HIp : Inv parked).
    { destruct HI as (L & R & W & Wz). unfold lockstep in L.
      unfold Inv, lockstep, parked. cbn [set_wg gs_wg gs_list counter waiters].
      lia. }
    destruct (force_zero_Inv parked HIp) as (Ho & Hb & Hc & Hw).
    rewrite Hw. cbn [orb Z.eqb await_doneCh]. intros Hcount.
    auto using Inv_zero.
Qed.

Lemma timer_before_wait_Inv (s : GracefulShutdown) :
  Inv s ->
  outcome (timer_before_wait s) = Returned tt /\
  barrier (timer_before_wait s) = repeat (-1) (Z.to_nat (gs_list s)) /\
  counter (gs_wg (final (timer_before_wait s))) = 0 /\
  Inv (final (timer_before_wait s)).
Proof.
  intros HI. pose proof (timer_before_wait_count s) as Hcount. revert Hcount.
  unfold timer_before_wait, WaitGroup_Wait. cbv zeta.
  destruct (force_zero_Inv s HI) as (Ho & Hb & Hc & Hw).
  rewrite Hc. cbn [Z.eqb await_doneCh outcome barrier final set_wg gs_wg gs_list].
  intros Hcount. auto using Inv_zero.
Qed.

(** C8.  When the timer case of WaitWithTimeout fires (the race is one of
    the two timer schedules, or the WaitGroup counter is not 0, so that
    [doneCh] cannot be closed first), the call runs
    [UnsubscribeN(Count())] and the count is 0 afterwards, from every
    state.  On a coordinator in its invariant the call returns normally, having itself made all [Count()] calls of
    [wg.Done()] for the outstanding work, and the WaitGroup counter is 0
    too. *)
Theorem WaitWithTimeout_timer_zeroes (race : Race) (s : GracefulShutdown) :
  race <> DoneFirst \/ counter (gs_wg s) <> 0 ->
  let r := WaitWithTimeout race s in
  count_of (final r) = 0 /\
  (Inv s ->
   outcome r = Returned tt /\
   barrier r = repeat (-1) (Z.to_nat (count_of s)) /\
   counter (gs_wg (final r)) = 0).
Proof.
  unfold count_of. intros Htimer. cbv zeta.
  assert (After : gs_list (final (timer_after_wait s)) = 0 /\
    (Inv s ->
     outcome (timer_after_wait s) = Returned tt /\
     barrier (timer_after_wait s) = repeat (-1) (Z.to_nat (gs_list s)) /\
     counter (gs_wg (final (timer_after_wait s))) = 0)).
  { split; [apply timer_after_wait_count|].
    intros HI. destruct (timer_after_wait_Inv s HI) as (A & B & C & _). auto. }
  destruct race; cbn [WaitWithTimeout].
  - destruct (Z.eqb_spec (counter (gs_wg s)) 0) as [E|E]; [|exact After].
    destruct Htimer; contradiction.
  - exact After.
  - split; [apply timer_before_wait_count|].
    intros HI. destruct (timer_before_wait_Inv s HI) as (A & B & C & _). auto.
Qed.

(** The scenario of the tests: [SubscribeN(10)], then [WaitWithTimeout]
    with nothing unsubscribing. *)
Lemma WaitWithTimeout_timer_zeroes_witness :
  let s := final (run (SubscribeN 10) NewGracefulShutdown) in
  let r := WaitWithTimeout TimerAfterWait s in
  count_of s = 10 /\
  count_of (final r) = 0 /\
  outcome r = Returned tt /\
  barrier r = repeat (-1) 10 /\
  counter (gs_wg (final r)) = 0.
Proof.
  split; [reflexivity|].
  destruct (WaitWithTimeout_timer_zeroes TimerAfterWait
              (final (run (SubscribeN 10) NewGracefulShutdown)))
    as [Hcount Hinv].
  - left. discriminate.
  - split; [exact Hcount|]. apply Hinv.
    repeat split; vm_compute; try reflexivity; discriminate.
Defined.

(* ===================================================================== *)
(** ** The invariant, one counter method at a time *)

Lemma run_wg_Add_final (d : Z) (s : GracefulShutdown) :
  final (run (wg_Add d) s) = set_wg (snd (WaitGroup_Add d (gs_wg s))) s /\
  barrier (run (wg_Add d) s) = [d] /\
  (outcome (run (wg_Add d) s) = Returned tt ->
   fst (WaitGroup_Add d (gs_wg s)) = None).
Proof.
  rewrite run_wg_Add.
  destruct (WaitGroup_Add d (gs_wg s)) as [[msg|] g]; cbn;
    repeat split; discriminate.
Qed.

(** A call of [wg.Add] that does not panic leaves a well-formed WaitGroup. *)
Lemma WaitGroup_Add_ok (d : Z) (g : WaitGroup) :
  0 <= waiters g ->
  fst (WaitGroup_Add d g) = None ->
  let g' := snd (WaitGroup_Add d g) in
  0 <= counter g' <= MaxInt32 /\
  0 <= waiters g' /\
  (counter g' = 0 -> waiters g' = 0).
Proof.
  intros W. unfold WaitGroup_Add.
  pose proof (int32_range (counter g + d)) as R. unfold is_int32 in R.
  destruct (Z.ltb_spec (int32 (counter g + d)) 0); [discriminate|].
  destruct (negb (waiters g =? 0) && (d >? 0) && (int32 (counter g + d) =? int32 d));
    [discriminate|].
  destruct (Z.gtb_spec (int32 (counter g + d)) 0);
    destruct (Z.eqb_spec (waiters g) 0); cbn; intros _; unfold MaxInt32 in *; lia.
Qed.

(** [wg.Add(d)] after the count has moved by the same [d]: the two stay
    equal whatever happens, and the invariant holds if the call returns. *)
Lemma wg_Add_after_list_Add (d : Z) (s : GracefulShutdown) :
  lockstep s ->
  let r := run (wg_Add d) (set_list (int32 (gs_list s + d)) s) in
  lockstep (final r) /\
  (0 <= waiters (gs_wg s) -> outcome r = Returned tt -> Inv (final r)).
Proof.
  intros L. cbv zeta. unfold lockstep in L.
  destruct (run_wg_Add_final d (set_list (int32 (gs_list s + d)) s))
    as (Hf & _ & Ho).
  rewrite Hf. cbn [set_list gs_wg] in *.
  assert (Hl : lockstep (set_wg (WaitGroup_Add d (gs_wg s)).2
                           (mkGS (gs_wg s) (int32 (gs_list s + d))))).
  { unfold lockstep. cbn [set_wg gs_wg gs_list].
    rewrite WaitGroup_Add_counter, L. reflexivity. }
  split; [exact Hl|].
  intros W Hr. specialize (Ho Hr).
  destruct (WaitGroup_Add_ok d (gs_wg s) W Ho) as (A & B & C).
  unfold lockstep in Hl. cbn [set_wg gs_wg gs_list] in Hl.
  unfold Inv, lockstep. cbn [set_wg gs_wg gs_list].
  rewrite <- Hl. auto.
Qed.

Lemma SubscribeN_keeps (n : Z) (s : GracefulShutdown) :
  Inv s ->
  let r := run (SubscribeN n) s in
  lockstep (final r) /\ (outcome r = Returned tt -> Inv (final r)).
Proof.
  intros (L & _ & W & _). rewrite run_SubscribeN.
  destruct (wg_Add_after_list_Add n s L) as [A B]. split; auto.
Qed.

(** [Unsubscribe()] keeps count and WaitGroup counter equal from wherever
    they are equal, the negative values a wrapped [Subscribe] leaves
    included. *)
Lemma Unsubscribe_keeps (s : GracefulShutdown) :
  lockstep s ->
  let r := run Unsubscribe s in
  lockstep (final r) /\ (Inv s -> outcome r = Returned tt -> Inv (final r)).
Proof.
  intros L. cbv zeta. rewrite run_Unsubscribe.
  destruct (gs_list s =? 0); [split; auto|].
  destruct (wg_Add_after_list_Add (-1) s L) as [A B]. split; [exact A|].
  intros (_ & _ & W & _). auto.
Qed.

Lemma run_SubscribeN_Inv (n : Z) (s : GracefulShutdown) :
  Inv s -> 0 < n -> gs_list s + n <= MaxInt32 ->
  run (SubscribeN n) s =
    mkResult (Returned tt)
      (mkGS (mkWaitGroup (gs_list s + n) (waiters (gs_wg s))) (gs_list s + n)) [n].
Proof.
  intros (L & R & W & Wz) Hn Hfit. unfold lockstep in L.
  rewrite run_SubscribeN, run_wg_Add. cbn [set_list gs_wg].
  unfold WaitGroup_Add. rewrite L.
  rewrite !int32_id by (unfold is_int32, MinInt32, MaxInt32 in *; lia).
  destruct (Z.ltb_spec (gs_list s + n) 0); [lia|].
  assert (M : negb (waiters (gs_wg s) =? 0) && (n >? 0) && (gs_list s + n =? n) = false).
  { destruct (Z.eqb_spec (waiters (gs_wg s)) 0); [reflexivity|].
    destruct (Z.eqb_spec (gs_list s + n) n); [|apply andb_false_r].
    exfalso. apply n0, Wz. lia. }
  rewrite M.
  destruct (Z.gtb_spec (gs_list s + n) 0); [|lia].
  reflexivity.
Qed.

Lemma run_UnsubscribeN_Inv (k : Z) (s : GracefulShutdown) :
  Inv s -> 0 <= k ->
  let c := Z.min k (gs_list s) in
  let s' := mkGS (Done_n (Z.to_nat c) (gs_wg s)) (gs_list s - c) in
  run (UnsubscribeN k) s = mkResult (Returned tt) s' (repeat (-1) (Z.to_nat c)) /\
  Inv s'.
Proof.
  intros (L & R & W & Wz) Hk. cbv zeta. unfold lockstep in L.
  rewrite run_UnsubscribeN.
  destruct (Z.eqb_spec (gs_list s) 0) as [E|E].
  - replace (Z.min k (gs_list s)) with 0 by lia.
    change (Z.to_nat 0) with O. cbn [Done_n repeat].
    replace (gs_list s - 0) with (gs_list s) by lia.
    replace (mkGS (gs_wg s) (gs_list s)) with s by (destruct s; reflexivity).
    split; [reflexivity|]. unfold Inv, lockstep. auto.
  - assert (Hc : (if gs_list s <? k then gs_list s else k) = Z.min k (gs_list s))
      by (destruct (Z.ltb_spec (gs_list s) k); lia).
    rewrite Hc. cbv zeta. set (c := Z.min k (gs_list s)).
    assert (0 <= c <= gs_list s) by (subst c; lia).
    rewrite run_Done_loop; cbn [set_list gs_wg gs_list set_wg]; [| lia | exact W].
    rewrite int32_add_r.
    rewrite (int32_id (gs_list s + c * -1))
      by (unfold is_int32, MinInt32, MaxInt32 in *; lia).
    replace (gs_list s + c * -1) with (gs_list s - c) by lia.
    split; [reflexivity|].
    unfold Inv, lockstep. cbn [gs_wg gs_list].
    destruct (Z.to_nat c) eqn:En.
    + cbn [Done_n]. assert (c = 0) by lia. lia.
    + cbn [Done_n counter waiters]. rewrite <- En.
      destruct (Z.eqb_spec (counter (gs_wg s) - Z.of_nat (Z.to_nat c)) 0); lia.
Qed.

Lemma run_Subscribe_as_N (s : GracefulShutdown) :
  run Subscribe s = run (SubscribeN 1) s.
Proof. reflexivity. Qed.

Lemma run_Unsubscribe_as_N (s : GracefulShutdown) :
  0 <= gs_list s -> run Unsubscribe s = run (UnsubscribeN 1) s.
Proof.
  intros H. rewrite run_Unsubscribe, run_UnsubscribeN.
  destruct (Z.eqb_spec (gs_list s) 0); [reflexivity|].
  destruct (Z.ltb_spec (gs_list s) 1); [lia|]. reflexivity.
Qed.

Lemma sumZ_repeat (n : nat) : sumZ (repeat (-1) n) = - Z.of_nat n.
Proof.
  induction n as [|n IH]; [reflexivity|].
  cbn [repeat]. unfold sumZ in *. cbn [foldr]. rewrite IH. lia.
Qed.

(** A [SubscribeN] that would take the count out of the [int32] range wraps
    both counters to a negative value, and [wg.Add] panics; so a
    [SubscribeN] that returns has moved the count by exactly its argument. *)
Lemma SubscribeN_returns_exact (n : Z) (s : GracefulShutdown) :
  Inv s -> is_int32 n ->
  outcome (run (SubscribeN n) s) = Returned tt ->
  gs_list (final (run (SubscribeN n) s)) = gs_list s + n /\
  barrier (run (SubscribeN n) s) = [n].
Proof.
  intros (L & R & W & Wz) Hn. unfold lockstep in L.
  rewrite run_SubscribeN.
  destruct (run_wg_Add_final n (set_list (int32 (gs_list s + n)) s)) as (Hf & Hb & Ho).
  intros Hr. specialize (Ho Hr). rewrite Hf, Hb. cbn [set_wg set_list gs_list gs_wg] in *.
  split; [|reflexivity].
  revert Ho. unfold WaitGroup_Add. rewrite L.
  destruct (Z.ltb_spec (int32 (gs_list s + n)) 0) as [Hneg|Hpos]; [discriminate|].
  intros _. unfold is_int32, MinInt32, MaxInt32 in *.
  destruct (Z.le_gt_cases (gs_list s + n) 2147483647) as [Hfit|Hover].
  - apply int32_id. unfold is_int32, MinInt32, MaxInt32. lia.
  - exfalso. revert Hpos. unfold int32.
    replace (gs_list s + n + 2147483648)
      with (gs_list s + n - 2147483648 + 1 * 4294967296) by lia.
    rewrite Z_mod_plus_full, Z.mod_small by lia. lia.
Qed.

(** One counter call with a positive argument that the range has room for:
    the call returns, the count moves as the unbounded counter of the
    specification does, the invariant holds again, and the deltas passed to
    [wg.Add] add up to the change of the count. *)
Lemma counter_call_returns (c : CounterCall) (s : GracefulShutdown) :
  Inv s -> 0 < amount c -> ideal_step c (gs_list s) <= MaxInt32 ->
  let r := run (method c) s in
  outcome r = Returned tt /\
  gs_list (final r) = ideal_step c (gs_list s) /\
  Inv (final r) /\
  sumZ (barrier r) = gs_list (final r) - gs_list s.
Proof.
  intros HI Hpos Hfit. cbv zeta.
  assert (Sub : forall n, 0 < n -> gs_list s + n <= MaxInt32 ->
    outcome (run (SubscribeN n) s) = Returned tt /\
    gs_list (final (run (SubscribeN n) s)) = gs_list s + n /\
    Inv (final (run (SubscribeN n) s)) /\
    sumZ (barrier (run (SubscribeN n) s)) =
      gs_list (final (run (SubscribeN n) s)) - gs_list s).
  { intros n Hn Hroom.
    pose proof (SubscribeN_keeps n s HI) as [_ Hk].
    rewrite run_SubscribeN_Inv in * by assumption.
    cbn [outcome final barrier gs_list] in *. unfold sumZ. cbn [foldr].
    split; [reflexivity|]. split; [reflexivity|].
    split; [apply Hk; reflexivity | lia]. }
  assert (Unsub : forall k, 0 < k ->
    outcome (run (UnsubscribeN k) s) = Returned tt /\
    gs_list (final (run (UnsubscribeN k) s)) = gs_list s - Z.min k (gs_list s) /\
    Inv (final (run (UnsubscribeN k) s)) /\
    sumZ (barrier (run (UnsubscribeN k) s)) =
      gs_list (final (run (UnsubscribeN k) s)) - gs_list s).
  { intros k Hk. destruct (run_UnsubscribeN_Inv k s HI (Z.lt_le_incl _ _ Hk)) as [E I].
    rewrite E. cbn [outcome final barrier gs_list]. rewrite sumZ_repeat.
    destruct HI as (_ & R & _).
    split; [reflexivity|]. split; [reflexivity|]. split; [exact I | lia]. }
  destruct c as [| n | | k]; unfold ideal_step in *;
    cbn [method amount is_subscribe] in *.
  - rewrite run_Subscribe_as_N. apply Sub; assumption.
  - apply Sub; assumption.
  - rewrite run_Unsubscribe_as_N by (destruct HI as (_ & R & _); lia).
    apply Unsub. lia.
  - apply Unsub. assumption.
Qed.

(** One counter call with an [int32] argument, not negative if the call is
    an unsubscribe: count and WaitGroup counter stay equal even if the call
    panics; if it returns, the invariant holds again and the deltas passed
    to [wg.Add] add up to the change of the count. *)
Lemma counter_call_keeps (c : CounterCall) (s : GracefulShutdown) :
  Inv s -> is_int32 (amount c) -> is_subscribe c = true \/ 0 <= amount c ->
  let r := run (method c) s in
  lockstep (final r) /\
  (outcome r = Returned tt ->
   Inv (final r) /\ sumZ (barrier r) = gs_list (final r) - gs_list s).
Proof.
  intros HI Ha Hsign. cbv zeta.
  assert (Sub : forall n, is_int32 n ->
    lockstep (final (run (SubscribeN n) s)) /\
    (outcome (run (SubscribeN n) s) = Returned tt ->
     Inv (final (run (SubscribeN n) s)) /\
     sumZ (barrier (run (SubscribeN n) s)) =
       gs_list (final (run (SubscribeN n) s)) - gs_list s)).
  { intros n Hn. destruct (SubscribeN_keeps n s HI) as [L I].
    split; [exact L|]. intros Hr. split; [exact (I Hr)|].
    destruct (SubscribeN_returns_exact n s HI Hn Hr) as [El Eb].
    rewrite El, Eb. unfold sumZ. cbn [foldr]. lia. }
  assert (Unsub : forall k, 0 <= k ->
    lockstep (final (run (UnsubscribeN k) s)) /\
    (outcome (run (UnsubscribeN k) s) = Returned tt ->
     Inv (final (run (UnsubscribeN k) s)) /\
     sumZ (barrier (run (UnsubscribeN k) s)) =
       gs_list (final (run (UnsubscribeN k) s)) - gs_list s)).
  { intros k Hk. destruct (run_UnsubscribeN_Inv k s HI Hk) as [E I].
    rewrite E. cbn [outcome final barrier gs_list]. rewrite sumZ_repeat.
    destruct HI as (_ & R & _).
    split; [apply I|]. intros _. split; [exact I | lia]. }
  destruct c as [| n | | k]; cbn [method amount is_subscribe] in *.
  - rewrite run_Subscribe_as_N. apply Sub, Ha.
  - apply Sub, Ha.
  - rewrite run_Unsubscribe_as_N by (destruct HI as (_ & R & _); lia).
    apply Unsub. lia.
  - apply Unsub. destruct Hsign; [discriminate | assumption].
Qed.

(* ===================================================================== *)
(** ** Sequences of counter calls *)

Lemma run_calls_from_Inv (cs : list CounterCall) (s : GracefulShutdown) :
  Inv s ->
  Forall (fun c => 0 < amount c) cs ->
  Forall (fun n => n <= MaxInt32) (ideal_counts cs (gs_list s)) ->
  let r := run_calls cs s in
  outcome r = Returned tt /\
  counts cs s = ideal_counts cs (gs_list s) /\
  Forall (fun n => 0 <= n) (counts cs s) /\
  count_of (final r) = gs_list s + subscribed cs - unsubscribed cs s /\
  Inv (final r).
Proof.
  revert s. induction cs as [|c cs IH]; intros s HI Hpos Hfit; cbv zeta.
  - cbn. unfold count_of.
    split; [reflexivity|]. split; [reflexivity|]. split; [constructor|].
    split; [lia | exact HI].
  - inversion Hpos as [|? ? Hc Hcs]; subst.
    cbn [ideal_counts] in Hfit. inversion Hfit as [|? ? Hn Hns]; subst.
    destruct (counter_call_returns c s HI Hc Hn) as (Ho & Hl & HI' & _).
    cbn [run_calls counts ideal_counts subscribed unsubscribed].
    rewrite Ho. cbn [outcome final].
    rewrite <- Hl in Hns.
    destruct (IH (final (run (method c) s)) HI' Hcs Hns) as (Ro & Rc & Rp & Rf & RI).
    split; [exact Ro|]. split; [|split; [|split]].
    + unfold count_of. rewrite Hl at 1. rewrite Rc, Hl. reflexivity.
    + constructor; [|exact Rp]. unfold count_of. destruct HI' as (_ & R & _). lia.
    + rewrite Rf, Hl. unfold ideal_step, count_of.
      destruct (is_subscribe c); lia.
    + exact RI.
Qed.

Lemma Inv_New : Inv NewGracefulShutdown.
Proof. unfold Inv, lockstep, MaxInt32. cbn. lia. Qed.

(** C4, as stated, fails once the subscriptions exceed the [int32] range:
    after [SubscribeN(2147483647)] a further [Subscribe()] wraps the count
    to [MinInt32] (and [wg.Add] panics), whereas the sum of the subscribed
    amounts minus the sum of the unsubscribed ones is 2147483648. *)
Lemma Count_negative_after_overflow :
  let cs := [CallSubscribeN MaxInt32; CallSubscribe] in
  Forall (fun c => 0 < amount c) cs /\
  counts cs NewGracefulShutdown = [MaxInt32; MinInt32] /\
  count_of (final (run_calls cs NewGracefulShutdown)) = MinInt32 /\
  subscribed cs - unsubscribed cs NewGracefulShutdown = 2147483648 /\
  outcome (run_calls cs NewGracefulShutdown) = Panicked negative_counter.
Proof.
  cbv zeta. split.
  - repeat constructor.
  - vm_compute. repeat split; reflexivity.
Qed.

(** C4, amended.  For every finite sequence of [Subscribe]/[SubscribeN]/
    [Unsubscribe]/[UnsubscribeN] calls with positive arguments made one
    after the other on a fresh coordinator, as long as the number of
    outstanding subscriptions never exceeds [MaxInt32]: every call returns,
    [Count()] after each call is what the unbounded counter of the
    specification holds and so is never negative, and at the end [Count()]
    is the sum of the subscribed amounts minus the sum of the amounts
    actually unsubscribed, each clamped to the count available when the
    call ran. *)
Theorem Count_accounting (cs : list CounterCall) :
  Forall (fun c => 0 < amount c) cs ->
  Forall (fun n => n <= MaxInt32) (ideal_counts cs 0) ->
  let r := run_calls cs NewGracefulShutdown in
  outcome r = Returned tt /\
  counts cs NewGracefulShutdown = ideal_counts cs 0 /\
  Forall (fun n => 0 <= n) (counts cs NewGracefulShutdown) /\
  count_of (final r) = subscribed cs - unsubscribed cs NewGracefulShutdown.
Proof.
  intros Hpos Hfit.
  destruct (run_calls_from_Inv cs NewGracefulShutdown Inv_New Hpos Hfit)
    as (Ho & Hc & Hp & Hf & _).
  cbv zeta. repeat split; auto.
Qed.
Lemma Count_accounting_witness :
  let cs := [CallSubscribeN 3; CallUnsubscribeN 10; CallSubscribe; CallUnsubscribe] in
  let r := run_calls cs NewGracefulShutdown in
  outcome r = Returned tt /\
  counts cs NewGracefulShutdown = ideal_counts cs 0 /\
  Forall (fun n => 0 <= n) (counts cs NewGracefulShutdown) /\
  count_of (final r) = subscribed cs - unsubscribed cs NewGracefulShutdown.
Proof.
  apply (Count_accounting
           [CallSubscribeN 3; CallUnsubscribeN 10; CallSubscribe; CallUnsubscribe]).
  - repeat (constructor; [reflexivity|]). constructor.
  - repeat (constructor; [vm_compute; discriminate|]). constructor.
Defined.

(* ===================================================================== *)
(** ** Count and WaitGroup counter, after every operation *)

(** C3, as stated, fails for [UnsubscribeN] with a negative argument: on a
    coordinator holding one subscription, [UnsubscribeN(-1)] raises the
    count to 2 and makes no call to the WaitGroup, whose counter stays 1. *)
Lemma UnsubscribeN_negative_breaks_lockstep :
  let s := final (run Subscribe NewGracefulShutdown) in
  let r := run (UnsubscribeN (-1)) s in
  lockstep s /\
  outcome r = Returned tt /\
  count_of (final r) = 2 /\
  counter (gs_wg (final r)) = 1 /\
  barrier r = [] /\
  ~ lockstep (final r).
Proof.
  cbv zeta. unfold lockstep. vm_compute.
  repeat split; try reflexivity. discriminate.
Qed.

Lemma call_Unsubscribe_keeps {Env : Type} (m : Mem Env) :
  lockstep (gs m) ->
  lockstep (gs (call Unsubscribe m).2) /\
  (Inv (gs m) -> (call Unsubscribe m).1 = Returned tt ->
   Inv (gs (call Unsubscribe m).2)).
Proof.
  intros L. unfold call, on_gs. cbn [fst snd gs].
  apply Unsubscribe_keeps, L.
Qed.

Lemma UnsubscribeFn_keeps {Env : Type} (f : Fn Env) :
  keeps_lockstep f -> keeps_lockstep (UnsubscribeFn f).
Proof.
  intros Hf m HI. unfold UnsubscribeFn.
  destruct (gs_list (gs m) =? 0).
  - cbn [fst snd]. split; [apply HI | intros _; exact HI].
  - unfold deferring. destruct (Hf m HI) as [L1 I1].
    destruct (f m) as [o m1]. cbn [fst snd] in L1, I1.
    destruct (call_Unsubscribe_keeps m1 L1) as [L2 I2].
    destruct (call Unsubscribe m1) as [o2 m2]. cbn [fst snd] in L2, I2.
    destruct o as [[]|msg|].
    + destruct o2 as [[]|msg2|]; cbn [fst snd]; split;
        try exact L2; try discriminate.
      intros _. apply I2; [apply I1|]; reflexivity.
    + destruct o2 as [[]|msg2|]; cbn [fst snd]; split;
        try exact L2; discriminate.
    + cbn [fst snd]. split; [exact L1 | discriminate].
Qed.

Lemma UnsubscribeFnWithTimeout_keeps {Env : Type} (f : Fn Env) (fired : Select) :
  keeps_lockstep f ->
  keeps_lockstep (fun m => (UnsubscribeFnWithTimeout f fired m).1).
Proof.
  intros Hf m HI. unfold UnsubscribeFnWithTimeout.
  destruct (gs_list (gs m) =? 0).
  - cbn [fst snd]. split; [apply HI | intros _; exact HI].
  - destruct (call_Unsubscribe_keeps m (proj1 HI)) as [L0 I0].
    assert (Timer : lockstep (gs (call Unsubscribe m, Some f).1.2) /\
      ((call Unsubscribe m, Some f).1.1 = Returned tt ->
       Inv (gs (call Unsubscribe m, Some f).1.2))).
    { cbn [fst snd]. split; [exact L0 | exact (I0 HI)]. }
    destruct fired; [exact Timer|].
    destruct (Hf m HI) as [L1 I1].
    destruct (f m) as [o m1]. cbn [fst snd] in L1, I1.
    destruct o as [[]|msg|].
    + destruct (call_Unsubscribe_keeps m1 L1) as [L2 I2].
      cbn [fst snd]. split; [exact L2 | apply I2, I1; reflexivity].
    + cbn [fst snd]. split; [exact L1 | discriminate].
    + exact Timer.
Qed.

Lemma Wait_keeps (s : GracefulShutdown) :
  Inv s ->
  lockstep (final (Wait s)) /\
  (outcome (Wait s) = Returned tt -> Inv (final (Wait s))).
Proof.
  intros HI. unfold Wait, WaitGroup_Wait.
  destruct (counter (gs_wg s) =? 0); cbn [outcome final].
  - replace (set_wg (gs_wg s) s) with s by (destruct s; reflexivity).
    split; [apply HI | intros _; exact HI].
  - split; [apply HI | discriminate].
Qed.

Lemma WaitWithTimeout_keeps (race : Race) (s : GracefulShutdown) :
  Inv s ->
  lockstep (final (WaitWithTimeout race s)) /\
  (outcome (WaitWithTimeout race s) = Returned tt ->
   Inv (final (WaitWithTimeout race s))).
Proof.
  intros HI.
  destruct (timer_after_wait_Inv s HI) as (_ & _ & _ & IA).
  destruct (timer_before_wait_Inv s HI) as (_ & _ & _ & IB).
  destruct race; cbn [WaitWithTimeout].
  - destruct (counter (gs_wg s) =? 0); cbn [final outcome].
    + split; [apply HI | intros _; exact HI].
    + split; [apply IA | intros _; exact IA].
  - split; [apply IA | intros _; exact IA].
  - split; [apply IB | intros _; exact IB].
Qed.

(** C3, amended.  On a coordinator whose count and WaitGroup counter are
    equal and within [0, MaxInt32], every operation of the interface leaves
    the count and the WaitGroup counter equal again, also when it panics or
    blocks, provided that the argument of [UnsubscribeN] is not negative
    (count arguments being [int32]s) and that a cleanup closure passed to
    the [Fn] variants keeps the two equal itself; when the operation
    returns, the whole invariant holds again.  For the four counter methods
    that return, the deltas passed to [wg.Add] (the argument for a
    subscribe, one [-1] per unit for an unsubscribe) add up to exactly the
    change of the count. *)
Theorem lockstep_after_every_call {Env : Type} (c : Call Env) (m : Mem Env) :
  Inv (gs m) -> call_ok c ->
  lockstep (gs (perform c m).2) /\
  ((perform c m).1 = Returned tt -> Inv (gs (perform c m).2)) /\
  (forall cc, c = DoCounter cc ->
     let r := run (method cc) (gs m) in
     outcome r = Returned tt ->
     sumZ (barrier r) = count_of (final r) - count_of (gs m)).
Proof.
  intros HI Hok.
  destruct c as [cc | f | f fired | | | race]; cbn [perform call_ok] in *.
  - (* the four counter methods *)
    unfold call, on_gs. cbn [fst snd gs].
    destruct Hok as [Ha Hsign].
    destruct (counter_call_keeps cc (gs m) HI Ha Hsign) as [L Hret].
    split; [exact L|]. split.
    + intros Hr. apply Hret, Hr.
    + intros cc' Hcc Hr. injection Hcc as <-. apply Hret, Hr.
  - destruct (UnsubscribeFn_keeps f Hok m HI) as [L I].
    split; [exact L|]. split; [exact I | discriminate].
  - destruct (UnsubscribeFnWithTimeout_keeps f fired Hok m HI) as [L I].
    split; [exact L|]. split; [exact I | discriminate].
  - split; [apply HI|]. split; [intros _; exact HI | discriminate].
  - destruct (Wait_keeps (gs m) HI) as [L I].
    split; [exact L|]. split; [exact I | discriminate].
  - destruct (WaitWithTimeout_keeps race (gs m) HI) as [L I].
    split; [exact L|]. split; [exact I | discriminate].
Qed.

Lemma lockstep_after_every_call_witness :
  let c : Call unit := DoCounter (CallUnsubscribeN 10) in
  let m := mkMem (mkGS (mkWaitGroup 3 0) 3) tt in
  lockstep (gs (perform c m).2) /\
  ((perform c m).1 = Returned tt -> Inv (gs (perform c m).2)) /\
  (forall cc, c = DoCounter cc ->
     let r := run (method cc) (gs m) in
     outcome r = Returned tt ->
     sumZ (barrier r) = count_of (final r) - count_of (gs m)).
Proof.
  apply (lockstep_after_every_call (DoCounter (CallUnsubscribeN 10))
           (mkMem (mkGS (mkWaitGroup 3 0) 3) tt)).
  - exact Inv_three.
  - split; [split; vm_compute; discriminate | right; vm_compute; discriminate].
Defined.

(* ===================================================================== *)
(** ** The scenarios of the repository's tests *)

Example Negative_Count_test :
  let s0 := final (run Unsubscribe NewGracefulShutdown) in
  let s1 := final (run (SubscribeN 3) s0) in
  let s2 := final (run (UnsubscribeN 10) s1) in
  let s3 := final (run (UnsubscribeN 10) s2) in
  (count_of s0, count_of s1, count_of s2, count_of s3) = (0, 3, 0, 0)
  /\ barrier (run (UnsubscribeN 10) s1) = [-1; -1; -1].
Proof. vm_compute. split; reflexivity. Qed.


(* ===================================================================== *)
(** ** SubscribeN and UnsubscribeN, for every argument *)

(** X1.  [SubscribeN(n)] on a coordinator in its invariant, for every
    [int32] [n]: when [count + n] lies in [0, MaxInt32] the call returns
    with the count at [count + n] and the invariant kept (so a negative [n]
    takes subscriptions away and [SubscribeN(0)] changes no count); in
    every other case, overflow past [MaxInt32] or a negative [n] larger
    than the count, [wg.Add] panics with a negative WaitGroup counter and
    the count is left negative, equal to the WaitGroup counter. *)
Theorem SubscribeN_any_argument (n : Z) (s : GracefulShutdown) :
  Inv s -> is_int32 n ->
  let r := run (SubscribeN n) s in
  barrier r = [n] /\
  (0 <= count_of s + n <= MaxInt32 ->
   outcome r = Returned tt /\ count_of (final r) = count_of s + n /\ Inv (final r)) /\
  (~ 0 <= count_of s + n <= MaxInt32 ->
   outcome r = Panicked negative_counter /\
   count_of (final r) = int32 (count_of s + n) /\
   count_of (final r) < 0 /\
   lockstep (final r)).
Proof.
  unfold count_of. intros HI Hn. cbv zeta.
  destruct (SubscribeN_keeps n s HI) as [Hlock Hinv].
  assert (HI' := HI). destruct HI' as (L & R & W & Wz). unfold lockstep in L.
  revert Hlock Hinv. rewrite run_SubscribeN, run_wg_Add. cbn [set_list gs_wg].
  unfold WaitGroup_Add. rewrite L.
  unfold is_int32, MinInt32, MaxInt32 in *.
  destruct (Z.ltb_spec (int32 (gs_list s + n)) 0) as [Hneg|Hpos].
  - (* the counter wraps or goes below 0 *)
    cbn [barrier outcome final set_wg gs_list]. intros Hlock _.
    split; [reflexivity|]. split.
    + intros Hin. exfalso.
      rewrite int32_id in Hneg by (unfold is_int32, MinInt32, MaxInt32; lia). lia.
    + intros _. split; [reflexivity|]. split; [reflexivity|].
      split; [exact Hneg | exact Hlock].
  - assert (Hin : 0 <= gs_list s + n <= 2147483647).
    { destruct (Z.le_gt_cases (gs_list s + n) 2147483647) as [Hfit|Hover].
      - rewrite int32_id in Hpos by (unfold is_int32, MinInt32, MaxInt32; lia). lia.
      - exfalso. revert Hpos. unfold int32.
        replace (gs_list s + n + 2147483648)
          with (gs_list s + n - 2147483648 + 1 * 4294967296) by lia.
        rewrite Z_mod_plus_full, Z.mod_small by lia. lia. }
    rewrite !int32_id by (unfold is_int32, MinInt32, MaxInt32; lia).
    assert (M : negb (waiters (gs_wg s) =? 0) && (n >? 0) && (gs_list s + n =? n) = false).
    { destruct (Z.eqb_spec (waiters (gs_wg s)) 0); [reflexivity|].
      destruct (Z.eqb_spec (gs_list s + n) n); [|apply andb_false_r].
      exfalso. apply n0, Wz. lia. }
    rewrite M.
    destruct ((gs_list s + n >? 0) || (waiters (gs_wg s) =? 0));
      cbn [barrier outcome final set_wg gs_list]; intros _ Hinv;
      (split; [reflexivity|]); (split; [intros _; auto | intros Hout; lia]).
Qed.

Lemma SubscribeN_any_argument_witness :
  let s := mkGS (mkWaitGroup 3 0) 3 in
  (outcome (run (SubscribeN (-2)) s) = Returned tt /\
   count_of (final (run (SubscribeN (-2)) s)) = 1) /\
  (outcome (run (SubscribeN (-5)) s) = Panicked negative_counter /\
   count_of (final (run (SubscribeN (-5)) s)) = -2) /\
  (outcome (run (SubscribeN MaxInt32) s) = Panicked negative_counter /\
   count_of (final (run (SubscribeN MaxInt32) s)) < 0).
Proof.
  assert (I32 : forall n, MinInt32 <= n <= MaxInt32 -> is_int32 n) by (intros n H; exact H).
  split; [|split].
  - destruct (SubscribeN_any_argument (-2) (mkGS (mkWaitGroup 3 0) 3) Inv_three)
      as (_ & Hin & _); [apply I32; vm_compute; split; discriminate|].
    destruct Hin as (Ho & Hc & _); [vm_compute; split; discriminate|].
    split; [exact Ho | exact Hc].
  - destruct (SubscribeN_any_argument (-5) (mkGS (mkWaitGroup 3 0) 3) Inv_three)
      as (_ & _ & Hout); [apply I32; vm_compute; split; discriminate|].
    destruct Hout as (Ho & Hc & _ & _).
    + intros [H _]. apply H. reflexivity.
    + split; [exact Ho | exact Hc].
  - destruct (SubscribeN_any_argument MaxInt32 (mkGS (mkWaitGroup 3 0) 3) Inv_three)
      as (_ & _ & Hout); [apply I32; vm_compute; split; discriminate|].
    destruct Hout as (Ho & _ & Hneg & _).
    + intros [_ H]. apply H. reflexivity.
    + split; [exact Ho | exact Hneg].
Defined.

(** X2.  [UnsubscribeN(k)] with [k >= 0] on a coordinator in its invariant
    always returns; it takes [min(k, count)] off the count, calls
    [wg.Done()] that many times, and keeps the invariant. *)
Theorem UnsubscribeN_takes_min (k : Z) (s : GracefulShutdown) :
  Inv s -> 0 <= k ->
  let r := run (UnsubscribeN k) s in
  outcome r = Returned tt /\
  count_of (final r) = count_of s - Z.min k (count_of s) /\
  barrier r = repeat (-1) (Z.to_nat (Z.min k (count_of s))) /\
  Inv (final r).
Proof.
  unfold count_of. intros HI Hk. cbv zeta.
  destruct (run_UnsubscribeN_Inv k s HI Hk) as [E I].
  rewrite E. cbn [outcome final barrier gs_list]. auto.
Qed.

Lemma UnsubscribeN_takes_min_witness :
  let r := run (UnsubscribeN 2) (mkGS (mkWaitGroup 3 0) 3) in
  outcome r = Returned tt /\
  count_of (final r) = 1 /\
  barrier r = [-1; -1] /\
  Inv (final r).
Proof.
  apply (UnsubscribeN_takes_min 2 (mkGS (mkWaitGroup 3 0) 3) Inv_three).
  vm_compute. discriminate.
Defined.

(* ===================================================================== *)
(** ** One call with a count against repeated single calls *)

Lemma GS_eta (s : GracefulShutdown) :
  mkGS (mkWaitGroup (counter (gs_wg s)) (waiters (gs_wg s))) (gs_list s) = s.
Proof. destruct s as [[c w] l]. reflexivity. Qed.

Lemma Subscribe_repeated (n : nat) (s : GracefulShutdown) :
  Inv s -> gs_list s + Z.of_nat n <= MaxInt32 ->
  outcome (run_calls (repeat CallSubscribe n) s) = Returned tt /\
  final (run_calls (repeat CallSubscribe n) s) =
    mkGS (mkWaitGroup (gs_list s + Z.of_nat n) (waiters (gs_wg s)))
         (gs_list s + Z.of_nat n).
Proof.
  revert s. induction n as [|n IH]; intros s HI Hfit.
  - cbn [repeat run_calls outcome final]. split; [reflexivity|].
    destruct HI as (L & _). unfold lockstep in L.
    change (Z.of_nat 0) with 0. rewrite Z.add_0_r. symmetry.
    rewrite <- L at 1. apply GS_eta.
  - cbn [repeat run_calls method]. rewrite run_Subscribe_as_N.
    pose proof (SubscribeN_keeps 1 s HI) as [_ HI1].
    rewrite run_SubscribeN_Inv in * by (assumption || lia).
    cbn [outcome final] in *. specialize (HI1 eq_refl).
    destruct (IH _ HI1) as [Ho Hf]; [cbn [gs_list]; lia|].
    cbn [gs_list gs_wg waiters] in Hf.
    rewrite Ho, Hf. cbn [outcome final].
    replace (gs_list s + 1 + Z.of_nat n) with (gs_list s + Z.of_nat (S n)) by lia.
    split; reflexivity.
Qed.

(** X3.  [SubscribeN(n)] leaves the coordinator exactly as [n] calls of
    [Subscribe()] in a row do, for every [n > 0] that the range has room
    for; both return. *)
Theorem SubscribeN_is_n_Subscribes (n : nat) (s : GracefulShutdown) :
  Inv s -> (0 < n)%nat -> count_of s + Z.of_nat n <= MaxInt32 ->
  outcome (run_calls (repeat CallSubscribe n) s) = Returned tt /\
  outcome (run (SubscribeN (Z.of_nat n)) s) = Returned tt /\
  final (run_calls (repeat CallSubscribe n) s) = final (run (SubscribeN (Z.of_nat n)) s).
Proof.
  unfold count_of. intros HI Hn Hfit.
  destruct (Subscribe_repeated n s HI Hfit) as [Ho Hf].
  rewrite Ho, Hf, run_SubscribeN_Inv by (assumption || lia).
  repeat split.
Qed.

Lemma SubscribeN_is_n_Subscribes_witness :
  let s := mkGS (mkWaitGroup 3 0) 3 in
  outcome (run_calls (repeat CallSubscribe 4) s) = Returned tt /\
  outcome (run (SubscribeN 4) s) = Returned tt /\
  final (run_calls (repeat CallSubscribe 4) s) = final (run (SubscribeN 4) s).
Proof.
  apply (SubscribeN_is_n_Subscribes 4 (mkGS (mkWaitGroup 3 0) 3) Inv_three).
  - repeat constructor.
  - vm_compute. discriminate.
Defined.

Lemma Unsubscribe_repeated (k : nat) (s : GracefulShutdown) :
  Inv s ->
  run_calls (repeat CallUnsubscribe k) s =
    mkResult (Returned tt)
      (mkGS (Done_n (Z.to_nat (Z.min (Z.of_nat k) (gs_list s))) (gs_wg s))
            (gs_list s - Z.min (Z.of_nat k) (gs_list s)))
      (repeat (-1) (Z.to_nat (Z.min (Z.of_nat k) (gs_list s)))).
Proof.
  revert s. induction k as [|k IH]; intros s HI.
  - assert (HI' := HI). destruct HI' as (L & R & W & Wz).
    replace (Z.min (Z.of_nat 0) (gs_list s)) with 0 by lia.
    cbn [repeat run_calls Z.to_nat Done_n].
    replace (gs_list s - 0) with (gs_list s) by lia.
    destruct s; reflexivity.
  - assert (HI' := HI). destruct HI' as (L & R & W & Wz). unfold lockstep in L.
    cbn [repeat run_calls method].
    destruct (Z.eq_dec (gs_list s) 0) as [E|E].
    + rewrite run_Unsubscribe, E. cbn [Z.eqb outcome final barrier].
      rewrite IH by exact HI. rewrite E.
      replace (Z.min (Z.of_nat k) 0) with 0 by lia.
      replace (Z.min (Z.of_nat (S k)) 0) with 0 by lia.
      reflexivity.
    + destruct (run_Unsubscribe_Inv s HI) as [E1 I1]; [unfold count_of; lia|].
      rewrite E1. cbn [outcome final barrier].
      rewrite IH by exact I1. cbn [outcome final barrier gs_list gs_wg].
      set (a := Z.min (Z.of_nat k) (gs_list s - 1)).
      replace (Z.min (Z.of_nat (S k)) (gs_list s)) with (a + 1) by (subst a; lia).
      assert (Ha : 0 <= a <= gs_list s - 1) by (subst a; lia).
      replace (Z.to_nat (a + 1)) with (S (Z.to_nat a)) by lia.
      rewrite Done_n_S by lia.
      replace (gs_list s - 1 - a) with (gs_list s - (a + 1)) by lia.
      reflexivity.
Qed.

(** X4.  [UnsubscribeN(k)] gives exactly the result of [k] calls of
    [Unsubscribe()] in a row, for every [k >= 0]: the same outcome, the
    same coordinator and the same calls of [wg.Done()]; the repeated calls
    stop taking effect at count 0 just as the single call clamps. *)
Theorem UnsubscribeN_is_k_Unsubscribes (k : nat) (s : GracefulShutdown) :
  Inv s ->
  run_calls (repeat CallUnsubscribe k) s = run (UnsubscribeN (Z.of_nat k)) s.
Proof.
  intros HI. rewrite Unsubscribe_repeated by exact HI.
  destruct (run_UnsubscribeN_Inv (Z.of_nat k) s HI) as [E _]; [lia|].
  rewrite E. reflexivity.
Qed.

Lemma UnsubscribeN_is_k_Unsubscribes_witness :
  run_calls (repeat CallUnsubscribe 5) (mkGS (mkWaitGroup 3 0) 3) =
  run (UnsubscribeN 5) (mkGS (mkWaitGroup 3 0) 3).
Proof.
  exact (UnsubscribeN_is_k_Unsubscribes 5 (mkGS (mkWaitGroup 3 0) 3) Inv_three).
Defined.

(** X5.  [SubscribeN(n)] followed by [UnsubscribeN(n)] gives back the
    coordinator it started from, count and WaitGroup alike, for every
    [n > 0] that the range has room for. *)
Theorem SubscribeN_then_UnsubscribeN (n : Z) (s : GracefulShutdown) :
  Inv s -> 0 < n -> count_of s + n <= MaxInt32 ->
  final (run (UnsubscribeN n) (final (run (SubscribeN n) s))) = s.
Proof.
  unfold count_of. intros HI Hn Hfit.
  pose proof (SubscribeN_keeps n s HI) as [_ HI1].
  rewrite run_SubscribeN_Inv in * by assumption.
  cbn [outcome final] in *. specialize (HI1 eq_refl).
  destruct (run_UnsubscribeN_Inv n _ HI1) as [E _]; [lia|].
  cbn [gs_list gs_wg] in E. rewrite E. cbn [final].
  destruct HI as (L & R & W & Wz). unfold lockstep in L.
  replace (Z.min n (gs_list s + n)) with n by lia.
  destruct (Z.to_nat n) eqn:En; [lia|]. cbn [Done_n counter waiters]. rewrite <- En.
  replace (gs_list s + n - Z.of_nat (Z.to_nat n)) with (gs_list s) by lia.
  replace (gs_list s + n - n) with (gs_list s) by lia.
  destruct s as [[c w] l]. cbn [gs_list gs_wg counter waiters] in *. subst c.
  destruct (Z.eqb_spec l 0) as [E0|E0]; [rewrite (Wz E0)|]; reflexivity.
Qed.

Lemma SubscribeN_then_UnsubscribeN_witness :
  let s := mkGS (mkWaitGroup 3 0) 3 in
  final (run (UnsubscribeN 7) (final (run (SubscribeN 7) s))) = s.
Proof.
  apply (SubscribeN_then_UnsubscribeN 7 (mkGS (mkWaitGroup 3 0) 3) Inv_three).
  - reflexivity.
  - vm_compute. discriminate.
Defined.

(* ===================================================================== *)
(** ** Wait and WaitWithTimeout *)

(** X6.  While count and WaitGroup counter agree, [Wait()] returns exactly
    when [Count()] is 0, and then without touching the coordinator; with
    anything subscribed, and nobody left to unsubscribe, it never returns
    and the count stays what it was. *)
Theorem Wait_returns_iff_idle (s : GracefulShutdown) :
  lockstep s ->
  (outcome (Wait s) = Returned tt <-> count_of s = 0) /\
  (count_of s = 0 -> Wait s = mkResult (Returned tt) s []) /\
  (count_of s <> 0 ->
   outcome (Wait s) = Blocked /\ count_of (final (Wait s)) = count_of s).
Proof.
  unfold lockstep, count_of, Wait, WaitGroup_Wait. intros L. rewrite L.
  destruct (Z.eqb_spec (gs_list s) 0) as [E|E]; cbn [outcome final set_wg gs_list].
  - replace (set_wg (gs_wg s) s) with s by (destruct s; reflexivity).
    split; [split; auto|]. split; [reflexivity|]. intros H. contradiction.
  - split; [split; [discriminate | intros H; contradiction]|].
    split; [intros H; contradiction|]. intros _. split; reflexivity.
Qed.

Lemma Wait_returns_iff_idle_witness :
  Wait NewGracefulShutdown = mkResult (Returned tt) NewGracefulShutdown [] /\
  outcome (Wait (mkGS (mkWaitGroup 3 0) 3)) = Blocked.
Proof.
  split.
  - apply (Wait_returns_iff_idle NewGracefulShutdown); reflexivity.
  - apply (Wait_returns_iff_idle (mkGS (mkWaitGroup 3 0) 3)); [reflexivity|].
    vm_compute. discriminate.
Defined.

Lemma WaitWithTimeout_idle (race : Race) (s : GracefulShutdown) :
  gs_list s = 0 -> counter (gs_wg s) = 0 ->
  WaitWithTimeout race s = mkResult (Returned tt) s [].
Proof.
  intros El Ec.
  assert (Hs : set_wg (gs_wg s) s = s) by (destruct s; reflexivity).
  assert (Hf : run force_zero s = mkResult (Returned tt) s []).
  { rewrite run_force_zero, run_UnsubscribeN, El. reflexivity. }
  assert (A : timer_after_wait s = mkResult (Returned tt) s []).
  { unfold timer_after_wait, WaitGroup_Wait. rewrite Ec. cbn [Z.eqb].
    rewrite Hs, Hf. reflexivity. }
  destruct race; cbn [WaitWithTimeout].
  - rewrite Ec. reflexivity.
  - exact A.
  - unfold timer_before_wait, WaitGroup_Wait. rewrite Hf. cbn [final outcome barrier].
    rewrite Ec. cbn [Z.eqb await_doneCh]. rewrite Hs. reflexivity.
Qed.

(** X7.  On a coordinator in its invariant, with no other goroutine at
    work, [WaitWithTimeout] returns however its race goes: it neither
    panics nor hangs, [Count()] is 0 afterwards, the invariant holds (the
    coordinator can be subscribed to again), and a following [Wait()]
    returns at once.  If nothing was subscribed the call changes nothing
    and calls [wg.Done()] not once. *)
Theorem WaitWithTimeout_always_returns (race : Race) (s : GracefulShutdown) :
  Inv s ->
  let r := WaitWithTimeout race s in
  outcome r = Returned tt /\
  count_of (final r) = 0 /\
  Inv (final r) /\
  outcome (Wait (final r)) = Returned tt /\
  (count_of s = 0 -> r = mkResult (Returned tt) s []).
Proof.
  unfold count_of. intros HI. cbv zeta.
  assert (Hidle : gs_list s = 0 -> WaitWithTimeout race s = mkResult (Returned tt) s []).
  { intros E. apply WaitWithTimeout_idle; [exact E|].
    destruct HI as (L & _). unfold lockstep in L. lia. }
  assert (Core : outcome (WaitWithTimeout race s) = Returned tt /\
                 gs_list (final (WaitWithTimeout race s)) = 0 /\
                 Inv (final (WaitWithTimeout race s))).
  { destruct (timer_after_wait_Inv s HI) as (Ao & _ & _ & AI).
    destruct (timer_before_wait_Inv s HI) as (Bo & _ & _ & BI).
    pose proof (timer_after_wait_count s) as Ac.
    pose proof (timer_before_wait_count s) as Bc.
    destruct race; cbn [WaitWithTimeout]; auto.
    destruct (Z.eqb_spec (counter (gs_wg s)) 0) as [E|E]; auto.
    cbn [outcome final]. destruct HI as (L & R). unfold lockstep in L.
    repeat split; try lia; try exact L; apply R. }
  destruct Core as (Ho & Hc & HI').
  split; [exact Ho|]. split; [exact Hc|]. split; [exact HI'|]. split; [|exact Hidle].
  unfold Wait, WaitGroup_Wait.
  destruct HI' as (L' & _). unfold lockstep in L'. rewrite L', Hc. reflexivity.
Qed.

Lemma WaitWithTimeout_always_returns_witness :
  let r := WaitWithTimeout DoneFirst (mkGS (mkWaitGroup 3 0) 3) in
  outcome r = Returned tt /\
  count_of (final r) = 0 /\
  Inv (final r) /\
  outcome (Wait (final r)) = Returned tt /\
  (count_of (mkGS (mkWaitGroup 3 0) 3) = 0 ->
   r = mkResult (Returned tt) (mkGS (mkWaitGroup 3 0) 3) []).
Proof.
  exact (WaitWithTimeout_always_returns DoneFirst (mkGS (mkWaitGroup 3 0) 3) Inv_three).
Defined.

(** X8.  The timeout is no way out once the two counters disagree: when
    [Count()] is 0 or negative while the WaitGroup counter is not 0, the
    forced [UnsubscribeN(Count())] calls [wg.Done()] not once, the spawned
    [Wait()] is never released, and [WaitWithTimeout] never returns,
    however the race goes. *)
Theorem WaitWithTimeout_hangs (race : Race) (s : GracefulShutdown) :
  count_of s <= 0 -> counter (gs_wg s) <> 0 -> 0 <= waiters (gs_wg s) ->
  outcome (WaitWithTimeout race s) = Blocked.
Proof.
  unfold count_of. intros Hl Hc Hw.
  assert (Hf : forall s', gs_list s' = gs_list s ->
             gs_wg (final (run force_zero s')) = gs_wg s').
  { intros s' El. rewrite run_force_zero, run_UnsubscribeN.
    destruct (gs_list s' =? 0); [reflexivity|].
    rewrite Z.ltb_irrefl. cbv zeta.
    replace (Z.to_nat (gs_list s')) with O by lia. reflexivity. }
  assert (A : outcome (timer_after_wait s) = Blocked).
  { unfold timer_after_wait, WaitGroup_Wait.
    destruct (Z.eqb_spec (counter (gs_wg s)) 0); [contradiction|].
    cbv zeta. rewrite Hf by reflexivity. cbn [set_wg gs_wg waiters orb].
    destruct (Z.eqb_spec (waiters (gs_wg s) + 1) 0); [lia|]. reflexivity. }
  destruct race; cbn [WaitWithTimeout].
  - destruct (Z.eqb_spec (counter (gs_wg s)) 0); [contradiction | exact A].
  - exact A.
  - unfold timer_before_wait, WaitGroup_Wait. cbv zeta. rewrite Hf by reflexivity.
    destruct (Z.eqb_spec (counter (gs_wg s)) 0); [contradiction|]. reflexivity.
Qed.

Lemma WaitWithTimeout_hangs_witness :
  outcome (WaitWithTimeout TimerAfterWait wrapped_gs) = Blocked.
Proof.
  apply (WaitWithTimeout_hangs TimerAfterWait wrapped_gs);
    vm_compute; discriminate.
Defined.

(* ===================================================================== *)
(** ** Closures: the timeout variant, and a closure that unsubscribes *)



(** X10.  A cleanup closure that itself calls [gs.Unsubscribe()] makes
    [UnsubscribeFn] unsubscribe twice: the call returns with the count
    lower by [min(2, count)], the deferred [Unsubscribe()] coming on top
    of the closure's own (and doing nothing only when the closure has
    already brought the count to 0). *)
Theorem UnsubscribeFn_closure_unsubscribes {Env : Type} (m : Mem Env) :
  Inv (gs m) -> 0 < count_of (gs m) ->
  let r := UnsubscribeFn (call Unsubscribe) m in
  r.1 = Returned tt /\
  count_of (gs r.2) = count_of (gs m) - Z.min 2 (count_of (gs m)) /\
  Inv (gs r.2) /\
  env r.2 = env m.
Proof.
  unfold count_of. intros HI Hpos. cbv zeta.
  destruct (run_Unsubscribe_Inv (gs m) HI Hpos) as [E1 I1].
  unfold UnsubscribeFn, deferring.
  destruct (Z.eqb_spec (gs_list (gs m)) 0); [lia|].
  unfold call, on_gs. rewrite E1. cbn [outcome final gs env].
  set (s1 := mkGS (Done_n 1 (gs_wg (gs m))) (gs_list (gs m) - 1)) in *.
  destruct (Z.eq_dec (gs_list (gs m)) 1) as [One|More].
  - rewrite run_Unsubscribe.
    replace (gs_list s1 =? 0) with true
      by (symmetry; apply Z.eqb_eq; subst s1; cbn [gs_list]; lia).
    cbn [outcome final fst snd gs env].
    subst s1. cbn [gs_list].
    split; [reflexivity|]. split; [lia|]. split; [exact I1 | reflexivity].
  - destruct (run_Unsubscribe_Inv s1 I1) as [E2 I2];
      [unfold count_of; subst s1; cbn [gs_list]; lia|].
    rewrite E2. cbn [outcome final fst snd gs env].
    subst s1. cbn [gs_list] in *.
    split; [reflexivity|]. split; [lia|]. split; [exact I2 | reflexivity].
Qed.

Lemma UnsubscribeFn_closure_unsubscribes_witness :
  let r := UnsubscribeFn (call Unsubscribe) (mkMem (mkGS (mkWaitGroup 3 0) 3) tt) in
  r.1 = Returned tt /\
  count_of (gs r.2) = 3 - Z.min 2 3 /\
  Inv (gs r.2) /\
  env r.2 = tt.
Proof.
  exact (UnsubscribeFn_closure_unsubscribes
           (mkMem (mkGS (mkWaitGroup 3 0) 3) tt) Inv_three eq_refl).
Defined.

(* ===================================================================== *)
(** ** Subscribe and Unsubscribe from many goroutines *)

Lemma sumZ_cons (f : Phase -> Z) (x : Phase) (ps : list Phase) :
  sumZ (f <$> x :: ps) = f x + sumZ (f <$> ps).
Proof. reflexivity. Qed.

Lemma sumZ_nonneg (f : Phase -> Z) (ps : list Phase) :
  (forall x, 0 <= f x) -> 0 <= sumZ (f <$> ps).
Proof.
  intros Hf. induction ps as [|x ps IH]; [reflexivity|].
  rewrite sumZ_cons. specialize (Hf x). lia.
Qed.

Lemma sumZ_insert (f : Phase -> Z) (ps : list Phase) (i : nat) (p q : Phase) :
  ps !! i = Some p ->
  sumZ (f <$> <[i := q]> ps) = sumZ (f <$> ps) - f p + f q.
Proof.
  revert i. induction ps as [|x ps IH]; intros i H; [discriminate|].
  destruct i as [|i].
  - injection H as ->. change (<[0%nat := q]> (p :: ps)) with (q :: ps).
    rewrite !sumZ_cons. lia.
  - change (<[S i := q]> (x :: ps)) with (x :: <[i := q]> ps).
    change ((x :: ps) !! S i) with (ps !! i) in H.
    rewrite !sumZ_cons, (IH i H). lia.
Qed.

Lemma sumZ_lookup_le (f : Phase -> Z) (ps : list Phase) (i : nat) (p : Phase) :
  (forall x, 0 <= f x) -> ps !! i = Some p ->
  f p <= sumZ (f <$> ps) /\ 0 <= sumZ (f <$> ps) - f p.
Proof.
  intros Hf. revert i. induction ps as [|x ps IH]; intros i H; [discriminate|].
  rewrite sumZ_cons.
  destruct i as [|i].
  - injection H as ->. pose proof (sumZ_nonneg f ps Hf). lia.
  - change ((x :: ps) !! S i) with (ps !! i) in H.
    specialize (IH i H). specialize (Hf x). lia.
Qed.

Lemma sumZ_phase_app (f : Phase -> Z) (a b : list Phase) :
  sumZ (f <$> (a ++ b)) = sumZ (f <$> a) + sumZ (f <$> b).
Proof.
  induction a as [|x a IH]; [reflexivity|].
  change ((x :: a) ++ b) with (x :: (a ++ b)). rewrite !sumZ_cons, IH. lia.
Qed.

Lemma sumZ_phase_repeat (f : Phase -> Z) (p : Phase) (n : nat) :
  sumZ (f <$> repeat p n) = Z.of_nat n * f p.
Proof.
  induction n as [|n IH]; [reflexivity|].
  change (repeat p (S n)) with (p :: repeat p n). rewrite sumZ_cons, IH. lia.
Qed.

Lemma prog_of_repeat (p : Phase) (n : nat) :
  prog_of <$> repeat p n = repeat (prog_of p) n.
Proof. induction n as [|n IH]; cbn; [reflexivity|]. f_equal. exact IH. Qed.

Lemma to_add_to_take_nonneg :
  (forall p, 0 <= list_to_add p) /\ (forall p, 0 <= wg_to_add p) /\
  (forall p, 0 <= list_to_take p) /\ (forall p, 0 <= wg_to_take p).
Proof. repeat split; intros []; cbn; lia. Qed.

(** One atomic operation of any goroutine keeps [side_by_side]. *)
Lemma step_side_by_side (K : Z) (i : nat) (c : Config) (ps : list Phase) :
  side_by_side K c ps -> exists ps', side_by_side K (step i c) ps'.
Proof.
  intros (Hpool & Hcr & Hw & J1 & J2 & J3 & J4 & J5 & J6).
  destruct to_add_to_take_nonneg as (Nla & Nwa & Nlt & Nwt).
  unfold step. rewrite Hcr, Hpool, list_lookup_fmap.
  destruct (ps !! i) as [p|] eqn:Hp; cbn [fmap option_fmap option_map].
  2: { exists ps. repeat split; assumption. }
  pose proof (sumZ_insert list_to_add ps i p) as Ila.
  pose proof (sumZ_insert wg_to_add ps i p) as Iwa.
  pose proof (sumZ_insert list_to_take ps i p) as Ilt.
  pose proof (sumZ_insert wg_to_take ps i p) as Iwt.
  pose proof (sumZ_lookup_le list_to_add ps i p Nla Hp) as Bla.
  pose proof (sumZ_lookup_le wg_to_add ps i p Nwa Hp) as Bwa.
  pose proof (sumZ_lookup_le list_to_take ps i p Nlt Hp) as Blt.
  pose proof (sumZ_lookup_le wg_to_take ps i p Nwt Hp) as Bwt.
  unfold MaxInt32 in *.
  destruct p; cbn [prog_of list_to_add wg_to_add list_to_take wg_to_take] in *.
  - (* Subscribe: list.Add(1) *)
    exists (<[i := SubAdded]> ps).
    specialize (Ila SubAdded Hp). specialize (Iwa SubAdded Hp).
    specialize (Ilt SubAdded Hp). specialize (Iwt SubAdded Hp).
    cbn [list_to_add wg_to_add list_to_take wg_to_take] in *.
    cbn [Subscribe mbind Prog_bind bind list_Add atomic_Add].
    unfold atomic_Add.
    rewrite (int32_id (gs_list (shared c) + 1))
      by (unfold is_int32, MinInt32, MaxInt32; lia).
    unfold side_by_side, MaxInt32. cbn [pool crashed shared set_list gs_wg gs_list].
    rewrite list_fmap_insert.
    repeat split; try reflexivity; try assumption; lia.
  - (* Subscribe: wg.Add(1) *)
    exists (<[i := Finished]> ps).
    specialize (Ila Finished Hp). specialize (Iwa Finished Hp).
    specialize (Ilt Finished Hp). specialize (Iwt Finished Hp).
    cbn [list_to_add wg_to_add list_to_take wg_to_take] in *.
    unfold wg_Add, WaitGroup_Add. rewrite Hw.
    rewrite (int32_id (counter (gs_wg (shared c)) + 1))
      by (unfold is_int32, MinInt32, MaxInt32; lia).
    destruct (Z.ltb_spec (counter (gs_wg (shared c)) + 1) 0); [lia|].
    cbn [Z.eqb negb andb].
    destruct (Z.gtb_spec (counter (gs_wg (shared c)) + 1) 0); [|lia].
    cbn [orb]. unfold side_by_side, MaxInt32.
    cbn [pool crashed shared set_wg gs_wg gs_list counter waiters].
    rewrite list_fmap_insert.
    repeat split; try reflexivity; try assumption; lia.
  - (* Unsubscribe: list.Load(), which cannot read 0 *)
    exists (<[i := UnsubLoaded]> ps).
    specialize (Ila UnsubLoaded Hp). specialize (Iwa UnsubLoaded Hp).
    specialize (Ilt UnsubLoaded Hp). specialize (Iwt UnsubLoaded Hp).
    cbn [list_to_add wg_to_add list_to_take wg_to_take] in *.
    cbn [Unsubscribe mbind Prog_bind bind list_Load].
    destruct (Z.eqb_spec (gs_list (shared c)) 0); [lia|].
    unfold side_by_side, MaxInt32. cbn [pool crashed shared].
    rewrite list_fmap_insert.
    repeat split; try reflexivity; try assumption; lia.
  - (* Unsubscribe: list.Add(-1) *)
    exists (<[i := UnsubAdded]> ps).
    specialize (Ila UnsubAdded Hp). specialize (Iwa UnsubAdded Hp).
    specialize (Ilt UnsubAdded Hp). specialize (Iwt UnsubAdded Hp).
    cbn [list_to_add wg_to_add list_to_take wg_to_take] in *.
    cbn [mbind Prog_bind bind list_Add atomic_Add].
    unfold atomic_Add.
    rewrite (int32_id (gs_list (shared c) + -1))
      by (unfold is_int32, MinInt32, MaxInt32; lia).
    unfold side_by_side, MaxInt32. cbn [pool crashed shared set_list gs_wg gs_list].
    rewrite list_fmap_insert.
    repeat split; try reflexivity; try assumption; lia.
  - (* Unsubscribe: wg.Done() *)
    exists (<[i := Finished]> ps).
    specialize (Ila Finished Hp). specialize (Iwa Finished Hp).
    specialize (Ilt Finished Hp). specialize (Iwt Finished Hp).
    cbn [list_to_add wg_to_add list_to_take wg_to_take] in *.
    unfold wg_Done, wg_Add.
    rewrite WaitGroup_Done_pos by (unfold MaxInt32; lia).
    unfold side_by_side, MaxInt32.
    cbn [pool crashed shared set_wg gs_wg gs_list Done_n counter waiters].
    rewrite list_fmap_insert, Hw.
    destruct (counter (gs_wg (shared c)) - Z.of_nat 1 =? 0);
      repeat split; try reflexivity; try assumption; lia.
  - (* finished *)
    exists ps. repeat split; assumption.
Qed.

Lemma exec_side_by_side (K : Z) (schedule : list nat) (c : Config) (ps : list Phase) :
  side_by_side K c ps -> exists ps', side_by_side K (exec schedule c) ps'.
Proof.
  revert c ps. induction schedule as [|i schedule IH]; intros c ps H.
  - exists ps. exact H.
  - rewrite exec_cons. destruct (step_side_by_side K i c ps H) as [ps1 H1].
    exact (IH _ _ H1).
Qed.

Lemma all_finished (ps : list Phase) :
  Forall (fun p => p = Ret tt) (prog_of <$> ps) ->
  sumZ (list_to_add <$> ps) = 0 /\ sumZ (wg_to_add <$> ps) = 0 /\
  sumZ (list_to_take <$> ps) = 0 /\ sumZ (wg_to_take <$> ps) = 0.
Proof.
  induction ps as [|p ps IH]; intros H; [repeat split|].
  cbn [fmap list_fmap] in H. inversion H as [|? ? Hp Hps]; subst.
  destruct (IH Hps) as (A & B & C & D).
  destruct p; try discriminate Hp.
  rewrite !sumZ_cons. cbn [list_to_add wg_to_add list_to_take wg_to_take]. lia.
Qed.

(** X11.  [m] goroutines calling [Subscribe()] and [n] goroutines calling
    [Unsubscribe()] at the same time, on a coordinator in its invariant
    that holds at least [n] subscriptions and has room for [m] more: under
    every schedule, at every point, no goroutine has panicked and the count
    is not negative; once all of them are done, [Count()] is the count at
    the start plus [m] minus [n], and the WaitGroup counter equals it. *)
Theorem Subscribe_Unsubscribe_side_by_side
    (schedule : list nat) (m n : nat) (s : GracefulShutdown) :
  Inv s -> waiters (gs_wg s) = 0 ->
  Z.of_nat n <= count_of s ->
  count_of s + Z.of_nat m <= MaxInt32 ->
  let c := exec schedule
             (mkConfig s (repeat Subscribe m ++ repeat Unsubscribe n) None) in
  crashed c = None /\
  0 <= count_of (shared c) /\
  (Forall (fun p => p = Ret tt) (pool c) ->
   count_of (shared c) = count_of s + Z.of_nat m - Z.of_nat n /\
   lockstep (shared c)).
Proof.
  unfold count_of. intros (L & R & W & Wz) Hw Hn Hm. cbv zeta. unfold lockstep in L.
  set (ps0 := repeat SubStart m ++ repeat UnsubStart n).
  assert (H0 : side_by_side (gs_list s + Z.of_nat m - Z.of_nat n)
                 (mkConfig s (repeat Subscribe m ++ repeat Unsubscribe n) None) ps0).
  { unfold side_by_side, ps0. cbn [pool crashed shared].
    rewrite fmap_app, !prog_of_repeat, !sumZ_phase_app, !sumZ_phase_repeat.
    cbn [prog_of list_to_add wg_to_add list_to_take wg_to_take].
    repeat split; try reflexivity; try assumption; lia. }
  destruct (exec_side_by_side _ schedule _ _ H0)
    as (ps & Hpool & Hcr & Hw' & J1 & J2 & J3 & J4 & J5 & J6).
  destruct to_add_to_take_nonneg as (Nla & Nwa & Nlt & Nwt).
  pose proof (sumZ_nonneg list_to_take ps Nlt) as Hlt.
  split; [exact Hcr|]. split; [lia|].
  intros Hall. rewrite Hpool in Hall.
  destruct (all_finished ps Hall) as (A & B & C & D).
  unfold lockstep. lia.
Qed.

(** The scenario of the specification, in small: every goroutine that
    subscribed also unsubscribes, all at once. *)
Lemma Subscribe_Unsubscribe_side_by_side_witness :
  let s := mkGS (mkWaitGroup 3 0) 3 in
  let c := exec [2; 0; 3; 1; 2; 3; 0; 2; 1; 3]%nat
             (mkConfig s (repeat Subscribe 2 ++ repeat Unsubscribe 2) None) in
  crashed c = None /\
  0 <= count_of (shared c) /\
  count_of (shared c) = 3 /\
  lockstep (shared c).
Proof.
  cbv zeta.
  destruct (Subscribe_Unsubscribe_side_by_side
              [2; 0; 3; 1; 2; 3; 0; 2; 1; 3]%nat 2 2
              (mkGS (mkWaitGroup 3 0) 3) Inv_three eq_refl)
    as (Hcr & Hpos & Hdone).
  - vm_compute. discriminate.
  - vm_compute. discriminate.
  - split; [exact Hcr|]. split; [exact Hpos|].
    apply Hdone. vm_compute. repeat constructor.
Defined.
